(** * Sales dashboard front end: the Analyze and Dashboard pages

    A shallow embedding of [frontend/src/pages/Analyze.tsx] and of the
    Dashboard page that follows it in the same source file.

    - JavaScript numbers are IEEE 754 binary64 values, modelled by
      [spec_float] with [prec = 53] and [emax = 1024]; arithmetic and
      comparison are the ones of [SpecFloat], and [Number.prototype.toFixed]
      is exact integer arithmetic on mantissa and exponent.
    - [Date] objects are time values (milliseconds since the epoch) with the
      calendar functions of ECMAScript; the clock and the local time zone
      are inputs.
    - An event handler ([submit], [fetchData]) is a computation that records,
      in order, the requests it issues, how each settles, and the state
      setters it calls; the backend is an input.  The state after the
      handler is the state before it with the recorded setter calls applied.
    - Rendering is a function of the component state into a small view tree;
      reading a property of [null] is an explicit [TypeError]. *)

From Stdlib Require Import ZArith List String Ascii Bool Lia DecimalString.
From Stdlib Require Import SpecFloat.
Import ListNotations.

Local Open Scope string_scope.
Local Open Scope Z_scope.

(** ** JavaScript numbers *)

Module JSNumber.

Definition number := spec_float.

Definition prec : Z := 53.
Definition emax : Z := 1024.

(** The number a decimal integer literal denotes. *)
Definition of_Z (z : Z) : number := binary_normalize prec emax z 0 false.

(** [x * y] *)
Definition mul (x y : number) : number := SFmul prec emax x y.

(** [x / y] *)
Definition div (x y : number) : number := SFdiv prec emax x y.

(** [x > y]: false as soon as one operand is NaN. *)
Definition gt (x y : number) : bool := SFltb y x.

(** The numbers of binary64: a finite one has a mantissa of 53 bits, or
    fewer at the least exponent. *)
Definition valid (x : number) : Prop := valid_binary prec emax x = true.

(** [n < x] in exact arithmetic, for an integer [n]: the value of a
    finite [x] is its signed mantissa times [2^e].  NaN is above
    nothing. *)
Definition exceeds (x : number) (n : Z) : Prop :=
  match x with
  | S754_nan => False
  | S754_infinity s => s = false
  | S754_zero _ => n < 0
  | S754_finite s m e =>
      n * 2 ^ Z.max 0 (- e)
      < (if s then Z.neg m else Z.pos m) * 2 ^ Z.max 0 e
  end.

(** The literals of the specification's examples, each the binary64
    value nearest to the decimal. *)
Definition lit_0_42 : number := S754_finite false 7566047373982433 (-54).
Definition lit_12_345 : number := S754_finite false 6949617174986097 (-49).
Definition lit_0_5 : number := S754_finite false 4503599627370496 (-53).

(** Decimal digits of a non-negative integer. *)
Definition digits (n : Z) : string :=
  NilZero.string_of_uint (N.to_uint (Z.to_N n)).

Fixpoint zeros (k : nat) : string :=
  match k with
  | O => ""
  | S k' => String "0" (zeros k')
  end.

(** [m * 2^e >= 10^21], the bound from which [toFixed] falls back on
    [ToString]. *)
Definition at_least_1e21 (m : positive) (e : Z) : bool :=
  if 0 <=? e then 10 ^ 21 <=? Z.pos m * 2 ^ e
  else 10 ^ 21 * 2 ^ (- e) <=? Z.pos m.

(** The integer [n] for which [n / 10^f - m * 2^e] is as close to zero as
    possible, the larger one when there are two. *)
Definition nearest_scaled (m : positive) (e : Z) (f : nat) : Z :=
  let p := Z.pos m * 10 ^ Z.of_nat f in
  if 0 <=? e then p * 2 ^ e
  else (2 * p + 2 ^ (- e)) / 2 ^ (- e + 1).

(** Steps 11.b to 11.d of [Number.prototype.toFixed]: the digits of [n]
    with a decimal point before the last [f] of them. *)
Definition place_point (n : Z) (f : nat) : string :=
  let m := digits n in
  match f with
  | O => m
  | _ =>
      let k := String.length m in
      let m := if (k <=? f)%nat then zeros (f + 1 - k) ++ m else m in
      let k := String.length m in
      substring 0 (k - f) m ++ "." ++ substring (k - f) f m
  end.

Section ToString.

(** [Number::toString] of ECMAScript, the conversion behind [String(x)]
    and behind a number placed in JSX.  It is a builtin of the host and
    is taken as a parameter; [toFixed] reaches it only for magnitudes of
    at least [10^21]. *)
Variable toString : number -> string.

(** [x.toFixed(f)] for [0 <= f <= 100], the only fraction digits the
    pages pass ([1] and [2]). *)
Definition toFixed (x : number) (f : nat) : string :=
  match x with
  | S754_nan => "NaN"
  | S754_infinity false => "Infinity"
  | S754_infinity true => "-Infinity"
  | S754_zero _ => place_point 0 f
  | S754_finite s m e =>
      let sign := if s then "-" else "" in
      if at_least_1e21 m e then sign ++ toString (S754_finite false m e)
      else sign ++ place_point (nearest_scaled m e f) f
  end.

End ToString.

End JSNumber.

(** ** JavaScript dates *)

Module JSDate.

Definition msPerDay : Z := 86400000.
Definition msPerHour : Z := 3600000.
Definition msPerMinute : Z := 60000.
Definition msPerSecond : Z := 1000.

Definition Day (t : Z) : Z := t / msPerDay.
Definition TimeWithinDay (t : Z) : Z := t mod msPerDay.

Definition DaysInYear (y : Z) : Z :=
  if negb (y mod 4 =? 0) then 365
  else if negb (y mod 100 =? 0) then 366
  else if negb (y mod 400 =? 0) then 365
  else 366.

Definition DayFromYear (y : Z) : Z :=
  365 * (y - 1970) + (y - 1969) / 4 - (y - 1901) / 100 + (y - 1601) / 400.

Definition TimeFromYear (y : Z) : Z := msPerDay * DayFromYear y.

(** The year whose first day is the last one not after day [d]: an
    estimate from the mean length of a Gregorian year, off by one at
    most, and its correction. *)
Definition year_of_day (d : Z) : Z :=
  let y := 1970 + (400 * d) / 146097 in
  if DayFromYear (y + 1) <=? d then y + 1
  else if DayFromYear y <=? d then y
  else y - 1.

(** The largest [y] with [TimeFromYear y <= t]. *)
Definition YearFromTime (t : Z) : Z := year_of_day (Day t).

Definition InLeapYear (t : Z) : Z :=
  if DaysInYear (YearFromTime t) =? 366 then 1 else 0.

Definition DayWithinYear (t : Z) : Z := Day t - DayFromYear (YearFromTime t).

(** Day within the year on which month [m] (0 to 11) starts, [leap]
    being 1 in a leap year and 0 otherwise. *)
Definition month_start (m leap : Z) : Z :=
  match m with
  | 0 => 0
  | 1 => 31
  | 2 => 59 + leap
  | 3 => 90 + leap
  | 4 => 120 + leap
  | 5 => 151 + leap
  | 6 => 181 + leap
  | 7 => 212 + leap
  | 8 => 243 + leap
  | 9 => 273 + leap
  | 10 => 304 + leap
  | _ => 334 + leap
  end.

Definition MonthFromTime (t : Z) : Z :=
  let d := DayWithinYear t in
  let leap := InLeapYear t in
  if d <? 31 then 0
  else if d <? 59 + leap then 1
  else if d <? 90 + leap then 2
  else if d <? 120 + leap then 3
  else if d <? 151 + leap then 4
  else if d <? 181 + leap then 5
  else if d <? 212 + leap then 6
  else if d <? 243 + leap then 7
  else if d <? 273 + leap then 8
  else if d <? 304 + leap then 9
  else if d <? 334 + leap then 10
  else 11.

Definition DateFromTime (t : Z) : Z :=
  DayWithinYear t - month_start (MonthFromTime t) (InLeapYear t) + 1.

Definition HourFromTime (t : Z) : Z := (t / msPerHour) mod 24.
Definition MinFromTime (t : Z) : Z := (t / msPerMinute) mod 60.
Definition SecFromTime (t : Z) : Z := (t / msPerSecond) mod 60.
Definition msFromTime (t : Z) : Z := t mod msPerSecond.

(** [MakeDay(year, month, date)] on integers: the day number of the
    first of the month, plus [date - 1]. *)
Definition MakeDay (year month date : Z) : Z :=
  let ym := year + month / 12 in
  let mn := month mod 12 in
  let leap := if DaysInYear ym =? 366 then 1 else 0 in
  DayFromYear ym + month_start mn leap + date - 1.

Definition MakeDate (day time : Z) : Z := day * msPerDay + time.

(** [TimeClip]: a time value further than 8.64e15 ms from the epoch is
    NaN, written [None]. *)
Definition TimeClip (t : Z) : option Z :=
  if 8640000000000000 <? Z.abs t then None else Some t.

(** A [Date] object holds a time value, or NaN. *)
Definition Date := option Z.

(** [s.padStart(width, "0")] *)
Definition pad (width : nat) (s : string) : string :=
  JSNumber.zeros (width - String.length s) ++ s.

Definition two (n : Z) : string := pad 2 (JSNumber.digits n).
Definition three (n : Z) : string := pad 3 (JSNumber.digits n).

(** The year of the ISO format: four digits from 0 to 9999, a sign and
    six digits otherwise. *)
Definition iso_year (y : Z) : string :=
  if (0 <=? y) && (y <=? 9999) then pad 4 (JSNumber.digits y)
  else if y <? 0 then "-" ++ pad 6 (JSNumber.digits (- y))
  else "+" ++ pad 6 (JSNumber.digits y).

(** The date part of the ISO format, months counted from 1. *)
Definition iso_date (t : Z) : string :=
  iso_year (YearFromTime t) ++ "-" ++ two (MonthFromTime t + 1)
    ++ "-" ++ two (DateFromTime t).

Definition iso_time (t : Z) : string :=
  two (HourFromTime t) ++ ":" ++ two (MinFromTime t) ++ ":"
    ++ two (SecFromTime t) ++ "." ++ three (msFromTime t).

(** [d.toISOString()]: the UTC date and time; [None] is the RangeError
    raised on an invalid date. *)
Definition toISOString (d : Date) : option string :=
  match d with
  | None => None
  | Some t => Some (iso_date t ++ "T" ++ iso_time t ++ "Z")
  end.

(** [s.slice(0, 10)] *)
Definition slice_0_10 (s : string) : string := substring 0 10 s.

Section TimeZone.

(** [LocalTZA t isUTC], the offset of local time in milliseconds: at
    UTC time [t] when [isUTC] holds, at local time [t] otherwise.  It
    is the host's and is taken as a parameter. *)
Variable LocalTZA : Z -> bool -> Z.

Definition LocalTime (t : Z) : Z := t + LocalTZA t true.
Definition UTC (t : Z) : Z := t - LocalTZA t false.

(** [d.getDate()]: the day of the month in local time, NaN on an
    invalid date. *)
Definition getDate (d : Date) : option Z :=
  match d with
  | None => None
  | Some t => Some (DateFromTime (LocalTime t))
  end.

(** [d.setDate(date)]: the date [d] becomes.  Year, month and time of
    day are those of [d] in local time. *)
Definition setDate (d : Date) (date : option Z) : Date :=
  match d, date with
  | Some t, Some dt =>
      let t := LocalTime t in
      let newDate :=
        MakeDate (MakeDay (YearFromTime t) (MonthFromTime t) dt)
                 (TimeWithinDay t) in
      TimeClip (UTC newDate)
  | _, _ => None
  end.

End TimeZone.

End JSDate.

(** ** Asynchronous event handlers *)

Module Handler.

(** A JSON object whose values are strings: a request body or the query
    parameters of a request, in the order the source writes them. *)
Definition Payload := list (string * string).

(** [p[key]], [None] when the object has no such key. *)
Fixpoint field (key : string) (p : Payload) : option string :=
  match p with
  | [] => None
  | (k, v) :: p' => if String.eqb k key then Some v else field key p'
  end.

(** The response object the HTTP client resolves with. *)
Record AxiosResponse (T : Type) := { data : T }.
Arguments data {T} _.

Section Computation.

(** [Act] are the calls of state setters, [Err] the values a rejected
    request throws. *)
Context {Act Err : Type}.

(** What a handler does, in order. *)
Inductive Event :=
  | Request (method url : string) (payload : Payload)
  | Resolved (url : string)
  | Rejected (url : string)
  | Update (a : Act).

(** A computation: the events so far, and a value or a thrown error. *)
Definition M (A : Type) : Type := list Event * (Err + A).

Definition ret {A} (a : A) : M A := ([], inr a).

Definition throw {A} (e : Err) : M A := ([], inl e).

Definition bind {A B} (c : M A) (k : A -> M B) : M B :=
  match c with
  | (t, inl e) => (t, inl e)
  | (t, inr a) => let (t', r) := k a in ((t ++ t')%list, r)
  end.

(** A call of a state setter. *)
Definition set (a : Act) : M unit := ([Update a], inr tt).

(** [await api.post(url, payload)] and [await api.get(url, {params})]:
    the request goes out, then the promise resolves with the response
    or rejects with an error, as the backend decides. *)
Definition await_request {T} (method url : string) (payload : Payload)
    (backend : Payload -> Err + T) : M (AxiosResponse T) :=
  match backend payload with
  | inl e => ([Request method url payload; Rejected url], inl e)
  | inr d => ([Request method url payload; Resolved url], inr {| data := d |})
  end.

(** [try { c } catch (err) { h err }] *)
Definition try_catch {A} (c : M A) (h : Err -> M A) : M A :=
  match c with
  | (t, inl e) => let (t', r) := h e in ((t ++ t')%list, r)
  | (t, inr a) => (t, inr a)
  end.

(** [try { c } finally { f }]: [f] runs in every case; the outcome is
    that of [c] unless [f] throws. *)
Definition try_finally {A} (c : M A) (f : M unit) : M A :=
  let (t, r) := c in
  let (t', r') := f in
  ((t ++ t')%list, match r' with inl e => inl e | inr _ => r end).

Definition trace {A} (c : M A) : list Event := fst c.

(** The setter calls of a trace, in order. *)
Fixpoint updates (t : list Event) : list Act :=
  match t with
  | [] => []
  | Update a :: t' => a :: updates t'
  | _ :: t' => updates t'
  end.

(** The requests of a trace, in order. *)
Fixpoint requests (t : list Event) : list (string * string * Payload) :=
  match t with
  | [] => []
  | Request m u p :: t' => (m, u, p) :: requests t'
  | _ :: t' => requests t'
  end.

Definition is_request_to (url : string) (ev : Event) : bool :=
  match ev with
  | Request _ u _ => String.eqb u url
  | _ => false
  end.

(** Position of the first event of a trace that satisfies [p]. *)
Fixpoint index_of (p : Event -> bool) (t : list Event) : option nat :=
  match t with
  | [] => None
  | ev :: t' =>
      if p ev then Some O
      else match index_of p t' with
           | Some n => Some (S n)
           | None => None
           end
  end.

Section State.

Context {S : Type}.

(** How a setter call changes the component state. *)
Variable apply : S -> Act -> S.

(** The component state once the setter calls of a trace are applied. *)
Definition commit (st : S) (t : list Event) : S :=
  fold_left apply (updates t) st.

(** The component state after the first [n] events of a trace. *)
Definition state_after (st : S) (t : list Event) (n : nat) : S :=
  commit st (firstn n t).

End State.

End Computation.

Arguments Event : clear implicits.
Arguments M : clear implicits.

Declare Scope handler_scope.
Delimit Scope handler_scope with handler.
Notation "x <- c ;; k" := (bind c (fun x => k))
  (at level 100, c at next level, right associativity) : handler_scope.
Notation "c ;; k" := (bind c (fun _ => k))
  (at level 100, right associativity) : handler_scope.

End Handler.

(** ** Rendered views *)

Module View.

(** A value of a JSON object handed to a chart. *)
Inductive Json :=
  | JStr (s : string)
  | JNum (x : JSNumber.number).

(** A JSON object, its keys in order. *)
Definition Row := list (string * Json).

(** The value of a JSX attribute.  Styling ([className] and the chart
    colours and sizes passed as literals) is left out of the views. *)
Inductive Attr :=
  | AStr (s : string)
  | ANat (n : nat)
  | ABool (b : bool)
  | ARows (rows : list Row)
  | AHandler (name : string).

#[local] Set Warnings "-register-all".

(** A rendered element or component with its attributes and children, or
    a piece of text. *)
Inductive Node :=
  | Text (s : string)
  | El (tag : string) (attrs : list (string * Attr)) (children : list Node).

(** The outcome of evaluating a JSX expression: a value, or the
    TypeError of reading a property of [null]. *)
Inductive result (A : Type) :=
  | Ok (a : A)
  | TypeError.
Arguments Ok {A} a.
Arguments TypeError {A}.

Definition bind {A B} (r : result A) (k : A -> result B) : result B :=
  match r with
  | Ok a => k a
  | TypeError => TypeError
  end.

(** [o.f] where [o] may be [null]. *)
Definition get {R A} (o : option R) (f : R -> A) : result A :=
  match o with
  | Some r => Ok (f r)
  | None => TypeError
  end.

(** Truthiness of an object-or-null, of a string and of a number that is
    a length. *)
Definition truthy {R} (o : option R) : bool :=
  match o with Some _ => true | None => false end.

Definition nonempty (s : string) : bool := negb (String.eqb s "").

(** [{c && e}] as a child: the element [e] when [c] is truthy, nothing
    otherwise; [e] is evaluated only in the first case. *)
Definition when (c : bool) (e : result Node) : result (list Node) :=
  if c then bind e (fun n => Ok [n]) else Ok [].

(** The same for a fragment or for the elements of a mapped array. *)
Definition when_all (c : bool) (e : result (list Node)) : result (list Node) :=
  if c then e else Ok [].

(** [xs.map((x, index) => f index x)] *)
Fixpoint mapi_from {A B} (i : nat) (f : nat -> A -> B) (xs : list A) : list B :=
  match xs with
  | [] => []
  | x :: xs' => f i x :: mapi_from (S i) f xs'
  end.

Definition mapi {A B} (f : nat -> A -> B) (xs : list A) : list B :=
  mapi_from 0 f xs.

Declare Scope view_scope.
Delimit Scope view_scope with view.
Notation "x <- c ;; k" := (bind c (fun x => k))
  (at level 100, c at next level, right associativity) : view_scope.

End View.

(** ** The Analyze page *)

Module Analyze.

Import JSNumber JSDate Handler View.

(** [type Platform = "YouTube"] *)
Inductive Platform := YouTube.

Definition platform_string (p : Platform) : string :=
  match p with YouTube => "YouTube" end.

(** The date range of the form; [end_] is the source's [end]. *)
Record DateRange := { start : string; end_ : string }.

Section DefaultDates.

Variable LocalTZA : Z -> bool -> Z.

(** [defaultDates()].  The two [new Date()] read the clock one after
    the other: [now_end] is the first reading, [now_start] the second.
    [None] is the RangeError of [toISOString] on an invalid date. *)
Definition defaultDates (now_end now_start : Z) : option DateRange :=
  let end_date : Date := Some now_end in
  let start_date : Date := Some now_start in
  let start_date :=
    setDate LocalTZA start_date
      (option_map (fun d => d - 7) (getDate LocalTZA end_date)) in
  match toISOString start_date, toISOString end_date with
  | Some s, Some e =>
      Some {| start := slice_0_10 s; end_ := slice_0_10 e |}
  | _, _ => None
  end.

End DefaultDates.

(** Modelled from the spec: the response types [SentimentAnalysisResponse]
    and [SalesLossPredictionResponse] of [../api/types], which is not
    among the sources; the fields are those the specification lists for
    the two endpoints, which are also those the page reads. *)
Record SentimentAnalysisResponse := {
    average_sentiment : number;
    total_posts : number;
    negative_percentage : number
  }.

Record SalesLossPredictionResponse := {
    predicted_drop_percentage : number;
    loss_probability : number;
    risk_level : string;
    explanation : string
  }.

(** The state of [AnalyzePage], one field per [useState]. *)
Record State := {
    product : string;
    brand : string;
    platform : Platform;
    range : DateRange;
    loading : bool;
    sentiment : option SentimentAnalysisResponse;
    prediction : option SalesLossPredictionResponse;
    error : string
  }.

(** The state of the first render, [range] being what [defaultDates]
    returned. *)
Definition initial (r : DateRange) : State :=
  {| product := "NeoGadget"; brand := "BlueNova"; platform := YouTube;
     range := r; loading := false; sentiment := None; prediction := None;
     error := "" |}.

(** The setters.  There is none for [platform]. *)
Inductive Action :=
  | setProduct (v : string)
  | setBrand (v : string)
  | setRange (f : DateRange -> DateRange)
  | setLoading (v : bool)
  | setSentiment (v : option SentimentAnalysisResponse)
  | setPrediction (v : option SalesLossPredictionResponse)
  | setError (v : string).

Definition apply (st : State) (a : Action) : State :=
  match a with
  | setProduct v =>
      {| product := v; brand := brand st; platform := platform st;
         range := range st; loading := loading st;
         sentiment := sentiment st; prediction := prediction st;
         error := error st |}
  | setBrand v =>
      {| product := product st; brand := v; platform := platform st;
         range := range st; loading := loading st;
         sentiment := sentiment st; prediction := prediction st;
         error := error st |}
  | setRange f =>
      {| product := product st; brand := brand st; platform := platform st;
         range := f (range st); loading := loading st;
         sentiment := sentiment st; prediction := prediction st;
         error := error st |}
  | setLoading v =>
      {| product := product st; brand := brand st; platform := platform st;
         range := range st; loading := v;
         sentiment := sentiment st; prediction := prediction st;
         error := error st |}
  | setSentiment v =>
      {| product := product st; brand := brand st; platform := platform st;
         range := range st; loading := loading st;
         sentiment := v; prediction := prediction st;
         error := error st |}
  | setPrediction v =>
      {| product := product st; brand := brand st; platform := platform st;
         range := range st; loading := loading st;
         sentiment := sentiment st; prediction := v;
         error := error st |}
  | setError v =>
      {| product := product st; brand := brand st; platform := platform st;
         range := range st; loading := loading st;
         sentiment := sentiment st; prediction := prediction st;
         error := v |}
  end.

Definition analyze_sentiment_url : string := "/analyze-sentiment".
Definition predict_sales_loss_url : string := "/predict-sales-loss".

(** The body both requests send, from the form values of the render
    whose [submit] is running. *)
Definition request_body (st : State) : Payload :=
  [ ("product_name", product st);
    ("brand_name", brand st);
    ("platform", platform_string (platform st));
    ("start_date", start (range st));
    ("end_date", end_ (range st)) ].

Section Client.

(** The values a failed request throws, and [formatError] of
    [../api/client], which turns one into a message; the client is not
    among the sources and is taken as a parameter. *)
Context {Err : Type}.
Variable formatError : Err -> string.

(** The backend behind [api.post]: what each endpoint answers to a
    body. *)
Record Backend := {
    analyze_sentiment : Payload -> Err + SentimentAnalysisResponse;
    predict_sales_loss : Payload -> Err + SalesLossPredictionResponse
  }.

Variable api : Backend.

Local Open Scope handler_scope.

(** [submit], as the render of state [st] defines it. *)
Definition submit (st : State) : M Action Err unit :=
  set (setLoading true) ;;
  set (setError "") ;;
  try_finally
    (try_catch
       (sentimentResp <-
          await_request "POST" analyze_sentiment_url (request_body st)
            (analyze_sentiment api) ;;
        set (setSentiment (Some (data sentimentResp))) ;;
        predictionResp <-
          await_request "POST" predict_sales_loss_url (request_body st)
            (predict_sales_loss api) ;;
        set (setPrediction (Some (data predictionResp))))
       (fun err => set (setError (formatError err))))
    (set (setLoading false)).

(** The state once [submit] has run to its end from state [st]. *)
Definition after_submit (st : State) : State :=
  commit apply st (trace (submit st)).

End Client.

Arguments Backend : clear implicits.

Section Render.

(** [Number::toString], by which React shows a number placed in JSX. *)
Variable toString : number -> string.

Local Open Scope view_scope.

Definition LoadingSkeleton (lines : nat) : Node :=
  El "LoadingSkeleton" [("lines", ANat lines)] [].

(** The row under the form: the submit button and the error message. *)
Definition ActionRow (st : State) : result Node :=
  message <- when (nonempty (error st)) (Ok (El "div" [] [Text (error st)])) ;;
  Ok (El "div" []
        (El "button"
            [("onClick", AHandler "submit"); ("disabled", ABool (loading st))]
            [Text (if loading st then "Analyzing..." else "Run analysis")]
         :: message)).

(** The two result cards and the link to the dashboard.  Every field
    is read from the state, where [sentiment] and [prediction] may be
    [null]. *)
Definition ResultCards (st : State) : result Node :=
  score <- get (sentiment st) average_sentiment ;;
  posts <- get (sentiment st) total_posts ;;
  negative <- get (sentiment st) negative_percentage ;;
  drop <- get (prediction st) predicted_drop_percentage ;;
  probability <- get (prediction st) loss_probability ;;
  risk <- get (prediction st) risk_level ;;
  why <- get (prediction st) explanation ;;
  Ok (El "div" []
        [ El "div" []
            [ El "div" [] [Text "Sentiment"];
              El "div" [] [Text (toFixed toString score 2 ++ " score")];
              El "div" []
                [Text (toString posts ++ " posts · "
                         ++ toFixed toString negative 1 ++ "% negative")] ];
          El "div" []
            [ El "div" [] [Text "Prediction"];
              El "div" []
                [Text (toFixed toString drop 1 ++ "% projected drop")];
              El "div" []
                [Text ("Loss probability "
                         ++ toFixed toString (mul probability (of_Z 100)) 1
                         ++ "% · Risk " ++ risk)];
              El "div" [] [Text why] ];
          El "button" [("onClick", AHandler "navigate")]
            [Text "Open Dashboard"] ]).

Definition EmptyHint : Node :=
  El "div" [] [Text "Run an analysis to see sentiment and risk results."].

(** The results panel. *)
Definition ResultsPanel (st : State) : result Node :=
  skeleton <- when (loading st) (Ok (LoadingSkeleton 5)) ;;
  cards <-
    when (negb (loading st) && truthy (sentiment st) && truthy (prediction st))
      (ResultCards st) ;;
  hint <-
    when (negb (loading st) && negb (truthy (sentiment st))) (Ok EmptyHint) ;;
  Ok (El "div" []
        (El "h3" [] [Text "Results"] :: skeleton ++ cards ++ hint)%list).

(** What the page shows of its state: the action row and the results
    panel. *)
Definition AnalyzePage (st : State) : result Node :=
  row <- ActionRow st ;;
  results <- ResultsPanel st ;;
  Ok (El "div" [] [row; results]).

End Render.

End Analyze.

(** ** The Dashboard page *)

Module Dashboard.

Import JSNumber Handler View.

(** Modelled from the spec: the response type [DashboardResponse] of
    [../api/types], which is not among the sources; the fields are those
    the specification lists for [/get-dashboard-data], which are also
    those the page reads.  The rows of the three series go to the charts
    as they are.  [alerts] may be absent, which is what the optional
    chaining of the page allows for. *)
Record Kpis := {
    average_sentiment : number;
    negative_percentage : number;
    predicted_sales_drop : number;
    risk_level : string
  }.

Record DashboardResponse := {
    kpis : Kpis;
    sentiment_trend : list Row;
    sentiment_distribution : list (string * number);
    comment_volume : list Row;
    sales_series : list Row;
    ai_insights : list string;
    alerts : option (list string)
  }.

Definition PIE_COLORS : list string := ["#22d3ee"; "#38bdf8"; "#6366f1"].

(** The state of [DashboardPage], one field per [useState]. *)
Record State := {
    data : option DashboardResponse;
    error : string;
    loading : bool
  }.

(** The state of the first render. *)
Definition initial : State :=
  {| data := None; error := ""; loading := true |}.

Inductive Action :=
  | setData (v : option DashboardResponse)
  | setError (v : string)
  | setLoading (v : bool).

Definition apply (st : State) (a : Action) : State :=
  match a with
  | setData v => {| data := v; error := error st; loading := loading st |}
  | setError v => {| data := data st; error := v; loading := loading st |}
  | setLoading v => {| data := data st; error := error st; loading := v |}
  end.

Definition get_dashboard_data_url : string := "/get-dashboard-data".

(** The [params] of the request. *)
Definition fetch_params : Payload :=
  [ ("product_name", "NeoGadget");
    ("brand_name", "BlueNova");
    ("platform", "Twitter") ].

Section Client.

Context {Err : Type}.
Variable formatError : Err -> string.

(** The backend behind [api.get]: what the endpoint answers to the
    query parameters. *)
Variable get_dashboard_data : Payload -> Err + DashboardResponse.

Local Open Scope handler_scope.

Definition fetchData : M Action Err unit :=
  set (setLoading true) ;;
  set (setError "") ;;
  try_finally
    (try_catch
       (resp <-
          await_request "GET" get_dashboard_data_url fetch_params
            get_dashboard_data ;;
        set (setData (Some (Handler.data resp))))
       (fun err => set (setError (formatError err))))
    (set (setLoading false)).

(** The effect that runs once, after the first render. *)
Definition on_mount : M Action Err unit := fetchData.

(** The click handler of the Refresh button. *)
Definition on_refresh : M Action Err unit := fetchData.

(** The state once [fetchData] has run to its end from state [st]. *)
Definition after_fetch (st : State) : State :=
  commit apply st (trace fetchData).

End Client.

(** The snapshot [d] with another risk level. *)
Definition with_risk_level (d : DashboardResponse) (risk : string)
    : DashboardResponse :=
  {| kpis :=
       {| average_sentiment := average_sentiment (kpis d);
          negative_percentage := negative_percentage (kpis d);
          predicted_sales_drop := predicted_sales_drop (kpis d);
          risk_level := risk |};
     sentiment_trend := sentiment_trend d;
     sentiment_distribution := sentiment_distribution d;
     comment_volume := comment_volume d;
     sales_series := sales_series d;
     ai_insights := ai_insights d;
     alerts := alerts d |}.

Definition kpiTone (risk : string) : string :=
  if String.eqb risk "High" then "bad"
  else if String.eqb risk "Medium" then "warn"
  else "good".

Section Render.

Variable toString : number -> string.

Local Open Scope view_scope.

Definition LoadingSkeleton (lines : nat) : Node :=
  El "LoadingSkeleton" [("lines", ANat lines)] [].

Definition KPICard (label value : string) (subtext : option string)
    (tone : string) : Node :=
  El "KPICard"
    ([("label", AStr label); ("value", AStr value)]
       ++ match subtext with Some t => [("subtext", AStr t)] | None => [] end
       ++ [("tone", AStr tone)])%list
    [].

Definition AlertBanner (message tone : string) : Node :=
  El "AlertBanner" [("message", AStr message); ("tone", AStr tone)] [].

(** The tone of the % Negative card. *)
Definition negativeTone (negative : number) : string :=
  if gt negative (of_Z 35) then "bad" else "warn".

(** The four KPI cards.  Every field is read from [data], which may be
    [null]. *)
Definition KpiCards (st : State) : result (list Node) :=
  sentiment <- get (data st) (fun d => average_sentiment (kpis d)) ;;
  risk1 <- get (data st) (fun d => risk_level (kpis d)) ;;
  negative <- get (data st) (fun d => negative_percentage (kpis d)) ;;
  negative' <- get (data st) (fun d => negative_percentage (kpis d)) ;;
  drop <- get (data st) (fun d => predicted_sales_drop (kpis d)) ;;
  risk2 <- get (data st) (fun d => risk_level (kpis d)) ;;
  level <- get (data st) (fun d => risk_level (kpis d)) ;;
  risk3 <- get (data st) (fun d => risk_level (kpis d)) ;;
  Ok [ KPICard "Average Sentiment" (toFixed toString sentiment 2)
         (Some "30d rolling") (kpiTone risk1);
       KPICard "% Negative" (toFixed toString negative 1 ++ "%")
         (Some "Twitter/Reddit blend") (negativeTone negative');
       KPICard "Predicted Sales Drop" (toFixed toString drop 1 ++ "%")
         (Some "Short-term") (kpiTone risk2);
       KPICard "Risk Level" level None (kpiTone risk3) ].

Definition KpiGrid (st : State) : result Node :=
  skeleton <- when (loading st) (Ok (LoadingSkeleton 4)) ;;
  cards <- when_all (negb (loading st) && truthy (data st)) (KpiCards st) ;;
  Ok (El "div" [] (skeleton ++ cards)%list).

(** A chart card: the placeholder while loading, the chart once the
    data is there. *)
Definition ChartCard (title : string) (st : State) (chart : result Node)
    : result Node :=
  skeleton <- when (loading st) (Ok (LoadingSkeleton 6)) ;;
  body <- when (negb (loading st) && truthy (data st)) chart ;;
  Ok (El "ChartCard" [("title", AStr title)] (skeleton ++ body)%list).

Definition Axes : list Node :=
  [ El "XAxis" [("dataKey", AStr "date")] []; El "YAxis" [] [];
    El "Tooltip" [] [] ].

Definition SentimentTrend (st : State) : result Node :=
  rows <- get (data st) sentiment_trend ;;
  Ok (El "ResponsiveContainer" []
        [ El "LineChart" [("data", ARows rows)]
            (Axes ++ [El "Line" [("dataKey", AStr "average_sentiment")] []])%list ]).

(** [Object.entries(o).map(([name, value]) => ({ name, value }))] *)
Definition entries (o : list (string * number)) : list Row :=
  map (fun kv => [("name", JStr (fst kv)); ("value", JNum (snd kv))]) o.

(** [Object.keys(o)] *)
Definition keys (o : list (string * number)) : list string := map fst o.

Definition PieCell (index : nat) : Node :=
  El "Cell"
    [("fill", AStr (nth (index mod List.length PIE_COLORS) PIE_COLORS ""))] [].

Definition SentimentDistribution (st : State) : result Node :=
  slices <- get (data st) (fun d => entries (sentiment_distribution d)) ;;
  cells <-
    get (data st)
      (fun d => mapi (fun index _ => PieCell index)
                  (keys (sentiment_distribution d))) ;;
  Ok (El "ResponsiveContainer" []
        [ El "PieChart" []
            [ El "Pie" [("data", ARows slices); ("dataKey", AStr "value")] cells;
              El "Legend" [] []; El "Tooltip" [] [] ] ]).

Definition CommentVolume (st : State) : result Node :=
  rows <- get (data st) comment_volume ;;
  Ok (El "ResponsiveContainer" []
        [ El "BarChart" [("data", ARows rows)]
            (Axes ++ [El "Bar" [("dataKey", AStr "total_posts")] []])%list ]).

Definition SalesSeries (st : State) : result Node :=
  rows <- get (data st) sales_series ;;
  Ok (El "ResponsiveContainer" []
        [ El "LineChart" [("data", ARows rows)]
            (Axes ++ [ El "Line" [("dataKey", AStr "actual_revenue")] [];
                       El "Line" [("dataKey", AStr "predicted_revenue")] [] ])%list ]).

Definition Charts (st : State) : result (list Node) :=
  trend <- ChartCard "Sentiment Trend (30d)" st (SentimentTrend st) ;;
  distribution <- ChartCard "Sentiment Distribution" st (SentimentDistribution st) ;;
  volume <- ChartCard "Comment Volume" st (CommentVolume st) ;;
  sales <- ChartCard "Actual vs Predicted Sales" st (SalesSeries st) ;;
  Ok [ El "div" [] [trend; distribution]; El "div" [] [volume; sales] ].

Definition InsightList (st : State) : result Node :=
  items <-
    get (data st)
      (fun d => map (fun i => El "li" [] [Text i]) (ai_insights d)) ;;
  Ok (El "ul" [] items).

(** The insights panel with the Refresh button. *)
Definition Insights (st : State) : result Node :=
  skeleton <- when (loading st) (Ok (LoadingSkeleton 4)) ;;
  items <- when (negb (loading st) && truthy (data st)) (InsightList st) ;;
  Ok (El "div" []
        (El "div" []
           [ El "h3" [] [Text "AI Insights"];
             El "button" [("onClick", AHandler "fetchData")] [Text "Refresh"] ]
         :: skeleton ++ items)%list).

(** [data?.alerts?.length]: [None] is [undefined]. *)
Definition alerts_length (st : State) : option nat :=
  match data st with
  | None => None
  | Some d =>
      match alerts d with
      | None => None
      | Some l => Some (List.length l)
      end
  end.

Definition length_truthy (n : option nat) : bool :=
  match n with
  | Some (S _) => true
  | _ => false
  end.

(** [data.alerts.map((a, idx) => <AlertBanner message={a} tone="warn" />)] *)
Definition AlertBanners (st : State) : result (list Node) :=
  found <- get (data st) alerts ;;
  get found (map (fun a => AlertBanner a "warn")).

(** [data?.alerts?.length ? data.alerts.map(...) : null] *)
Definition Alerts (st : State) : result (list Node) :=
  when_all (length_truthy (alerts_length st)) (AlertBanners st).

Definition SidePanel : Node :=
  El "div" []
    [ El "ChatPanel" [] [];
      El "div" []
        [ El "h3" [] [Text "Explanation"];
          El "p" []
            [Text "We aggregate daily sentiment, classify polarity, and blend with historical revenue. Logistic regression estimates loss probability; linear regression projects near-term revenue. Alerts trigger when probability or negative share crosses thresholds."] ] ].

Definition ErrorBanner (st : State) : result (list Node) :=
  when (nonempty (error st)) (Ok (AlertBanner (error st) "error")).

Definition DashboardPage (st : State) : result Node :=
  grid <- KpiGrid st ;;
  charts <- Charts st ;;
  insights <- Insights st ;;
  banners <- Alerts st ;;
  failure <- ErrorBanner st ;;
  Ok (El "div" []
        (El "div" [] (grid :: charts ++ insights :: banners)
         :: SidePanel :: failure)%list).

End Render.

End Dashboard.

(** ** Concrete inputs *)

Module Examples.

Import JSNumber Handler View.

(** A stand-in for [Number::toString]: right on the integers below
    [10^21], the only numbers the examples pass to it. *)
Definition integer_toString (x : number) : string :=
  match x with
  | S754_zero _ => "0"
  | S754_finite s m e =>
      (if s then "-" else "")
        ++ digits (if 0 <=? e then Z.pos m * 2 ^ e else Z.pos m / 2 ^ (- e))
  | S754_infinity false => "Infinity"
  | S754_infinity true => "-Infinity"
  | S754_nan => "NaN"
  end.

(** Errors that are their own message. *)
Definition message_of (e : string) : string := e.

(** An earlier analysis, still on screen. *)
Definition old_sentiment : Analyze.SentimentAnalysisResponse :=
  {| Analyze.average_sentiment := of_Z (-1);
     Analyze.total_posts := of_Z 10;
     Analyze.negative_percentage := of_Z 80 |}.

Definition old_prediction : Analyze.SalesLossPredictionResponse :=
  {| Analyze.predicted_drop_percentage := of_Z 40;
     Analyze.loss_probability := of_Z 1;
     Analyze.risk_level := "High";
     Analyze.explanation := "old" |}.

(** The answers of the specification's example. *)
Definition new_sentiment : Analyze.SentimentAnalysisResponse :=
  {| Analyze.average_sentiment := lit_0_42;
     Analyze.total_posts := of_Z 120;
     Analyze.negative_percentage := of_Z 25 |}.

Definition new_prediction : Analyze.SalesLossPredictionResponse :=
  {| Analyze.predicted_drop_percentage := lit_12_345;
     Analyze.loss_probability := lit_0_5;
     Analyze.risk_level := "Medium";
     Analyze.explanation := "new" |}.

Definition week : Analyze.DateRange :=
  {| Analyze.start := "2025-10-26"; Analyze.end_ := "2025-11-02" |}.

(** The page before any analysis, and with the earlier analysis shown. *)
Definition fresh : Analyze.State := Analyze.initial week.

Definition shown : Analyze.State :=
  {| Analyze.product := "NeoGadget"; Analyze.brand := "BlueNova";
     Analyze.platform := Analyze.YouTube; Analyze.range := week;
     Analyze.loading := false; Analyze.sentiment := Some old_sentiment;
     Analyze.prediction := Some old_prediction; Analyze.error := "" |}.

(** The backend at the time of the earlier analysis. *)
Definition earlier_up : Analyze.Backend string :=
  {| Analyze.analyze_sentiment := fun _ => inr old_sentiment;
     Analyze.predict_sales_loss := fun _ => inr old_prediction |}.

(** Three backends: both endpoints answer; the first one is down; the
    second one is down. *)
Definition both_up : Analyze.Backend string :=
  {| Analyze.analyze_sentiment := fun _ => inr new_sentiment;
     Analyze.predict_sales_loss := fun _ => inr new_prediction |}.

Definition first_down : Analyze.Backend string :=
  {| Analyze.analyze_sentiment := fun _ => inl "Network Error";
     Analyze.predict_sales_loss := fun _ => inr new_prediction |}.

Definition second_down : Analyze.Backend string :=
  {| Analyze.analyze_sentiment := fun _ => inr new_sentiment;
     Analyze.predict_sales_loss := fun _ => inl "Network Error" |}.

(** A dashboard snapshot with a given risk level and share of negative
    posts. *)
Definition snapshot (risk : string) (negative : number)
    : Dashboard.DashboardResponse :=
  {| Dashboard.kpis :=
       {| Dashboard.average_sentiment := lit_0_42;
          Dashboard.negative_percentage := negative;
          Dashboard.predicted_sales_drop := lit_12_345;
          Dashboard.risk_level := risk |};
     Dashboard.sentiment_trend := [];
     Dashboard.sentiment_distribution :=
       [("positive", of_Z 5); ("neutral", of_Z 3); ("negative", of_Z 2);
        ("mixed", of_Z 1)];
     Dashboard.comment_volume := [];
     Dashboard.sales_series := [];
     Dashboard.ai_insights := ["Sentiment is falling"];
     Dashboard.alerts := Some ["High risk"; "Negative share above threshold"] |}.

Definition loaded (d : Dashboard.DashboardResponse) : Dashboard.State :=
  {| Dashboard.data := Some d; Dashboard.error := ""; Dashboard.loading := false |}.

(** Local time in New York around the end of daylight saving time in
    2025: four hours behind UTC before 2025-11-02T06:00:00Z, five hours
    from then on; a local time is read with the earlier offset up to
    02:00 on that day. *)
Definition dst_end_2025 : Z := 1762063200000.

Definition new_york (t : Z) (isUTC : bool) : Z :=
  if isUTC then
    if t <? dst_end_2025 then -14400000 else -18000000
  else
    if t <? dst_end_2025 - 14400000 then -14400000 else -18000000.

(** A zone with no offset. *)
Definition utc_zone (t : Z) (isUTC : bool) : Z := 0.

(** 2025-11-06T00:30:00Z, which is the evening of 5 November in New York. *)
Definition evening_after_dst : Z := 1762389000000.

(** 2024-01-31T23:59:59.999Z, the last millisecond of January. *)
Definition last_ms_of_january : Z := 1706745599999.

End Examples.

(** ** The form of the Analyze page and a session on it *)

Module AnalyzeForm.

Import Handler View.

Section Handlers.

Context {Err : Type}.

(** [onChange] of the product input: [(e) => setProduct(e.target.value)]. *)
Definition onChangeProduct (value : string) : M Analyze.Action Err unit :=
  set (Analyze.setProduct value).

(** [onChange] of the brand input. *)
Definition onChangeBrand (value : string) : M Analyze.Action Err unit :=
  set (Analyze.setBrand value).

(** [onChange] of the start date:
    [setRange((r) => ({ ...r, start: e.target.value }))]. *)
Definition onChangeStart (value : string) : M Analyze.Action Err unit :=
  set (Analyze.setRange
         (fun r => {| Analyze.start := value; Analyze.end_ := Analyze.end_ r |})).

(** [onChange] of the end date. *)
Definition onChangeEnd (value : string) : M Analyze.Action Err unit :=
  set (Analyze.setRange
         (fun r => {| Analyze.start := Analyze.start r; Analyze.end_ := value |})).

Variable formatError : Err -> string.

(** What the user does on the page: type in an input, pick a date, or
    click the submit button while a backend is there to answer. *)
Inductive UserEvent :=
| TypeProduct (value : string)
| TypeBrand (value : string)
| PickStart (value : string)
| PickEnd (value : string)
| ClickRun (api : Analyze.Backend Err).

(** The handler an event runs, on the render of state [st].  The submit
    button is [disabled] while loading, and a click on it then runs
    nothing. *)
Definition handler (st : Analyze.State) (ev : UserEvent)
    : M Analyze.Action Err unit :=
  match ev with
  | TypeProduct v => onChangeProduct v
  | TypeBrand v => onChangeBrand v
  | PickStart v => onChangeStart v
  | PickEnd v => onChangeEnd v
  | ClickRun api =>
      if Analyze.loading st then ret tt
      else Analyze.submit formatError api st
  end.

(** The events that edit the form. *)
Definition is_edit (ev : UserEvent) : bool :=
  match ev with
  | ClickRun _ => false
  | _ => true
  end.

(** The state once the handler of an event has run to its end. *)
Definition react (st : Analyze.State) (ev : UserEvent) : Analyze.State :=
  commit Analyze.apply st (trace (handler st ev)).

(** The state after a sequence of events, each handled to its end before
    the next. *)
Definition session (st : Analyze.State) (evs : list UserEvent) : Analyze.State :=
  fold_left react evs st.

End Handlers.

Arguments UserEvent : clear implicits.

(** A labelled input of the form. *)
Definition Input (label : string) (attrs : list (string * Attr)) : Node :=
  El "div" [] [El "label" [] [Text label]; El "input" attrs []].

(** The input panel: the header with the link to the dashboard, the five
    inputs and the action row. *)
Definition InputPanel (st : Analyze.State) : result Node :=
  bind (Analyze.ActionRow st) (fun row =>
  Ok (El "div" []
        [ El "div" []
            [ El "div" []
                [El "p" [] [Text "Input"]; El "h2" [] [Text "Product Analysis"]];
              El "button" [("onClick", AHandler "navigate")]
                [Text "Go to Dashboard"] ];
          El "div" []
            [ Input "Product name"
                [("value", AStr (Analyze.product st));
                 ("onChange", AHandler "setProduct")];
              Input "Brand name"
                [("value", AStr (Analyze.brand st));
                 ("onChange", AHandler "setBrand")];
              Input "Platform" [("value", AStr "YouTube"); ("disabled", ABool true)];
              El "div" []
                [ Input "Start date"
                    [("type", AStr "date");
                     ("value", AStr (Analyze.start (Analyze.range st)));
                     ("onChange", AHandler "setRange")];
                  Input "End date"
                    [("type", AStr "date");
                     ("value", AStr (Analyze.end_ (Analyze.range st)));
                     ("onChange", AHandler "setRange")] ] ];
          row ])).

End AnalyzeForm.

(** ** Handlers that overlap *)

Module EventLoop.

Import Handler.

Section Steps.

Context {Act : Type}.

(** The steps of a handler: it runs without interruption up to each
    request it awaits, and again from the moment the request settles. *)
Fixpoint steps (t : list (Event Act)) : list (list (Event Act)) :=
  match t with
  | [] => []
  | ev :: t' =>
      match ev with
      | Request _ _ _ => [ev] :: steps t'
      | _ =>
          match steps t' with
          | [] => [[ev]]
          | s :: rest => (ev :: s) :: rest
          end
      end
  end.

(** The runs of two handlers on one event loop: the steps of each in
    their order, those of the two in any order. *)
Inductive interleaving
  : list (list (Event Act)) -> list (list (Event Act)) -> list (Event Act) -> Prop :=
| both_done : interleaving [] [] []
| left_step s l r t :
    interleaving l r t -> interleaving (s :: l) r (s ++ t)%list
| right_step s l r t :
    interleaving l r t -> interleaving l (s :: r) (s ++ t)%list.

(** Requests of a trace that have not settled. *)
Definition pending (t : list (Event Act)) : nat :=
  List.length (requests t)
  - List.length (filter (fun ev => match ev with
                                   | Resolved _ | Rejected _ => true
                                   | _ => false
                                   end) t).

End Steps.

End EventLoop.

(** ** A session on the Dashboard *)

Module DashboardSession.

Import Handler.

Section Session.

Context {Err : Type}.
Variable formatError : Err -> string.

(** The state after a sequence of fetches (the one of the first render,
    then one for each click on Refresh), each run to its end before the
    next; [backends] are the backends that answer them. *)
Definition fetches (st : Dashboard.State)
    (backends : list (Payload -> Err + Dashboard.DashboardResponse))
    : Dashboard.State :=
  fold_left (fun st backend => Dashboard.after_fetch formatError backend st)
    backends st.

(** The snapshot of the last answer that is not an error. *)
Fixpoint last_success (answers : list (Err + Dashboard.DashboardResponse))
    : option Dashboard.DashboardResponse :=
  match answers with
  | [] => None
  | a :: rest =>
      match last_success rest with
      | Some d => Some d
      | None => match a with inr d => Some d | inl _ => None end
      end
  end.

End Session.

End DashboardSession.

(** * Properties *)

(** ** The two handlers, case by case *)

Section HandlerFacts.

Import Handler.

Context {Err : Type}.
Variable formatError : Err -> string.

(** What [submit] does, by what the backend answers: the first request
    fails, the second one fails, or both succeed. *)
Lemma submit_cases (api : Analyze.Backend Err) (st : Analyze.State) :
  Analyze.submit formatError api st =
  let body := Analyze.request_body st in
  let a_url := Analyze.analyze_sentiment_url in
  let b_url := Analyze.predict_sales_loss_url in
  match Analyze.analyze_sentiment api body with
  | inl e =>
      ([ Update (Analyze.setLoading true); Update (Analyze.setError "");
         Request "POST" a_url body; Rejected a_url;
         Update (Analyze.setError (formatError e));
         Update (Analyze.setLoading false) ], inr tt)
  | inr a =>
      match Analyze.predict_sales_loss api body with
      | inl e =>
          ([ Update (Analyze.setLoading true); Update (Analyze.setError "");
             Request "POST" a_url body; Resolved a_url;
             Update (Analyze.setSentiment (Some a));
             Request "POST" b_url body; Rejected b_url;
             Update (Analyze.setError (formatError e));
             Update (Analyze.setLoading false) ], inr tt)
      | inr p =>
          ([ Update (Analyze.setLoading true); Update (Analyze.setError "");
             Request "POST" a_url body; Resolved a_url;
             Update (Analyze.setSentiment (Some a));
             Request "POST" b_url body; Resolved b_url;
             Update (Analyze.setPrediction (Some p));
             Update (Analyze.setLoading false) ], inr tt)
      end
  end.
Proof.
  unfold Analyze.submit, await_request; cbv zeta.
  destruct (Analyze.analyze_sentiment api _) as [e | a]; cbn.
  - reflexivity.
  - destruct (Analyze.predict_sales_loss api _) as [e | p]; reflexivity.
Qed.

(** What [fetchData] does, by what the backend answers. *)
Lemma fetchData_cases (backend : Payload -> Err + Dashboard.DashboardResponse) :
  Dashboard.fetchData formatError backend =
  let url := Dashboard.get_dashboard_data_url in
  match backend Dashboard.fetch_params with
  | inl e =>
      ([ Update (Dashboard.setLoading true); Update (Dashboard.setError "");
         Request "GET" url Dashboard.fetch_params; Rejected url;
         Update (Dashboard.setError (formatError e));
         Update (Dashboard.setLoading false) ], inr tt)
  | inr d =>
      ([ Update (Dashboard.setLoading true); Update (Dashboard.setError "");
         Request "GET" url Dashboard.fetch_params; Resolved url;
         Update (Dashboard.setData (Some d));
         Update (Dashboard.setLoading false) ], inr tt)
  end.
Proof.
  unfold Dashboard.fetchData, await_request; cbv zeta.
  destruct (backend _) as [e | d]; reflexivity.
Qed.

End HandlerFacts.

(** ** A submission of the Analyze page *)

Section Submission.

Import Handler.

Context {Err : Type}.
Variable formatError : Err -> string.
Variable api : Analyze.Backend Err.
Variable st : Analyze.State.
Variable toString : JSNumber.number -> string.

(** C2: when the request to /analyze-sentiment fails, it is the only
    request of the submission, so /predict-sales-loss is never issued;
    the stored sentiment and prediction are what they were, no setter of
    the prediction is called, the stored error is the formatted message,
    and loading is false again. *)
Theorem submit_first_request_fails (e : Err) :
  Analyze.analyze_sentiment api (Analyze.request_body st) = inl e ->
  requests (trace (Analyze.submit formatError api st))
    = [("POST", "/analyze-sentiment", Analyze.request_body st)]
  /\ index_of (is_request_to "/predict-sales-loss")
       (trace (Analyze.submit formatError api st)) = None
  /\ Analyze.sentiment (Analyze.after_submit formatError api st)
       = Analyze.sentiment st
  /\ Analyze.prediction (Analyze.after_submit formatError api st)
       = Analyze.prediction st
  /\ (forall v, ~ In (Update (Analyze.setPrediction v))
                  (trace (Analyze.submit formatError api st)))
  /\ Analyze.error (Analyze.after_submit formatError api st) = formatError e
  /\ Analyze.loading (Analyze.after_submit formatError api st) = false.
Proof.
  intros Hfail. unfold Analyze.after_submit.
  rewrite submit_cases; cbv zeta. rewrite Hfail.
  repeat split; try reflexivity.
  intros v Hin. cbn in Hin.
  repeat (destruct Hin as [Hin | Hin]; [discriminate Hin |]).
  exact Hin.
Qed.

(** C4: the first thing a submission does is to set loading to true; the
    last thing it does, after every request it issued has settled, is to
    set loading to false, whether both requests succeed, the first fails
    or the second fails; in between loading stays true. *)
Theorem submit_loading_bracket :
  (exists rest, trace (Analyze.submit formatError api st)
                = Update (Analyze.setLoading true) :: rest)
  /\ (exists before, trace (Analyze.submit formatError api st)
                     = (before ++ [Update (Analyze.setLoading false)])%list
        /\ List.length (requests before)
           = List.length (filter (fun ev => match ev with
                                            | Resolved _ | Rejected _ => true
                                            | _ => false
                                            end) before))
  /\ Analyze.loading (Analyze.after_submit formatError api st) = false
  /\ (forall n, (1 <= n)%nat ->
        (n < List.length (trace (Analyze.submit formatError api st)))%nat ->
        Analyze.loading
          (state_after Analyze.apply st
             (trace (Analyze.submit formatError api st)) n) = true).
Proof.
  unfold Analyze.after_submit. rewrite submit_cases; cbv zeta.
  destruct (Analyze.analyze_sentiment api _) as [e | a];
    [| destruct (Analyze.predict_sales_loss api _) as [e | p]];
    (split; [eexists; reflexivity |]);
    (split;
       [ cbn [trace fst];
         match goal with
         | |- exists before, ?l = _ /\ _ =>
             exists (removelast l); split; reflexivity
         end |]);
    (split; [reflexivity |]);
    intros n Hlo Hhi; cbn [trace fst List.length] in Hhi;
    do 9 (destruct n as [| n]; [first [lia | reflexivity] |]); lia.
Qed.


End Submission.

(** ** Fetch cycles of both pages *)

Section FetchCycles.

Import Handler.

Context {Err : Type}.
Variable formatError : Err -> string.

(** C1, as amended: every fetch cycle starts by setting loading and
    clearing the error, and stores a result only when the request for it
    succeeded.  A Dashboard cycle leaves the new snapshot on success and
    the previous one on failure.  An Analyze cycle leaves the two previous
    results when the first request fails and the two new ones when both
    requests succeed; when the first request succeeds and the second one
    fails, it leaves the new sentiment beside the previous prediction. *)
Theorem fetch_cycle_commits
    (api : Analyze.Backend Err) (st : Analyze.State)
    (backend : Payload -> Err + Dashboard.DashboardResponse)
    (dst : Dashboard.State) :
  (exists rest,
      trace (Analyze.submit formatError api st)
      = Update (Analyze.setLoading true) :: Update (Analyze.setError "") :: rest)
  /\ (exists rest,
        trace (Dashboard.fetchData formatError backend)
        = Update (Dashboard.setLoading true) :: Update (Dashboard.setError "")
            :: rest)
  /\ Dashboard.data (Dashboard.after_fetch formatError backend dst)
     = match backend Dashboard.fetch_params with
       | inr d => Some d
       | inl _ => Dashboard.data dst
       end
  /\ (Analyze.sentiment (Analyze.after_submit formatError api st),
      Analyze.prediction (Analyze.after_submit formatError api st))
     = match Analyze.analyze_sentiment api (Analyze.request_body st),
             Analyze.predict_sales_loss api (Analyze.request_body st) with
       | inl _, _ => (Analyze.sentiment st, Analyze.prediction st)
       | inr a, inl _ => (Some a, Analyze.prediction st)
       | inr a, inr p => (Some a, Some p)
       end.
Proof.
  unfold Analyze.after_submit, Dashboard.after_fetch.
  rewrite submit_cases, fetchData_cases; cbv zeta.
  destruct (Analyze.analyze_sentiment api _) as [e | a];
    [| destruct (Analyze.predict_sales_loss api _) as [e | p]];
    destruct (backend _) as [e' | d];
    repeat split; eexists; reflexivity.
Qed.

(** C9: a fetch of the Dashboard issues one request, GET
    /get-dashboard-data with the parameters product_name NeoGadget,
    brand_name BlueNova and platform Twitter, whatever the backend
    answers; the effect of the first render and the Refresh button both
    run this fetch.  Every request of the Analyze page carries the
    platform YouTube, which is another one. *)
Theorem dashboard_fetch_request
    (backend : Payload -> Err + Dashboard.DashboardResponse)
    (api : Analyze.Backend Err) (st : Analyze.State) :
  requests (trace (Dashboard.fetchData formatError backend))
    = [("GET", "/get-dashboard-data",
        [("product_name", "NeoGadget"); ("brand_name", "BlueNova");
         ("platform", "Twitter")])]
  /\ Dashboard.on_mount formatError backend
     = Dashboard.fetchData formatError backend
  /\ Dashboard.on_refresh formatError backend
     = Dashboard.fetchData formatError backend
  /\ field "platform" Dashboard.fetch_params = Some "Twitter"
  /\ forallb (fun r => match field "platform" (snd r) with
                       | Some v => String.eqb v "YouTube"
                       | None => false
                       end)
       (requests (trace (Analyze.submit formatError api st))) = true
  /\ Analyze.platform_string (Analyze.platform st) = "YouTube"
  /\ "Twitter" <> "YouTube".
Proof.
  assert (Hyt : Analyze.platform_string (Analyze.platform st) = "YouTube")
    by (destruct (Analyze.platform st); reflexivity).
  split.
  { rewrite fetchData_cases; cbv zeta.
    destruct (backend Dashboard.fetch_params); reflexivity. }
  do 3 (split; [reflexivity |]).
  split; [| split; [exact Hyt | discriminate]].
  rewrite submit_cases; cbv zeta.
  destruct (Analyze.analyze_sentiment api _) as [e | a];
    [| destruct (Analyze.predict_sales_loss api _) as [e | p]];
    cbn; rewrite Hyt; reflexivity.
Qed.

End FetchCycles.

(** C1, as stated, fails: with an earlier analysis on screen (the state
    a first, successful submission leaves), a submission whose first
    request succeeds and whose second request fails ends with the new
    sentiment stored beside the earlier prediction, and the results panel
    shows the two together. *)
Lemma fetch_cycle_mixes_results :
  let after :=
    Analyze.after_submit Examples.message_of Examples.second_down Examples.shown in
  Analyze.after_submit Examples.message_of Examples.earlier_up Examples.fresh
    = Examples.shown
  /\ Analyze.sentiment Examples.shown = Some Examples.old_sentiment
  /\ Analyze.prediction Examples.shown = Some Examples.old_prediction
  /\ Analyze.sentiment after = Some Examples.new_sentiment
  /\ Examples.new_sentiment <> Examples.old_sentiment
  /\ Analyze.prediction after = Some Examples.old_prediction
  /\ Analyze.error after = "Network Error"
  /\ Analyze.loading after = false
  /\ exists rest1 rest2 rest3,
       Analyze.ResultsPanel Examples.integer_toString after
       = View.Ok
           (View.El "div" []
              [ View.El "h3" [] [View.Text "Results"];
                View.El "div" []
                  [ View.El "div" []
                      (View.El "div" [] [View.Text "Sentiment"]
                       :: View.El "div" [] [View.Text "0.42 score"] :: rest1);
                    View.El "div" []
                      (View.El "div" [] [View.Text "Prediction"]
                       :: View.El "div" [] [View.Text "40.0% projected drop"]
                       :: rest2);
                    rest3 ] ]).
Proof.
  cbv zeta. repeat split; try reflexivity.
  - intros H. discriminate H.
  - do 3 eexists. vm_compute. reflexivity.
Qed.

(** With the earlier analysis on screen and the first endpoint down, the
    submission sends one request and keeps both earlier results. *)
Lemma submit_first_request_fails_witness :
  Analyze.analyze_sentiment Examples.first_down
    (Analyze.request_body Examples.shown) = inl "Network Error"
  /\ Handler.requests
       (Handler.trace
          (Analyze.submit Examples.message_of Examples.first_down Examples.shown))
     = [("POST", "/analyze-sentiment", Analyze.request_body Examples.shown)]
  /\ Analyze.sentiment
       (Analyze.after_submit Examples.message_of Examples.first_down Examples.shown)
     = Some Examples.old_sentiment
  /\ Analyze.prediction
       (Analyze.after_submit Examples.message_of Examples.first_down Examples.shown)
     = Some Examples.old_prediction
  /\ Analyze.error
       (Analyze.after_submit Examples.message_of Examples.first_down Examples.shown)
     = "Network Error".
Proof.
  split; [reflexivity |].
  destruct (submit_first_request_fails Examples.message_of Examples.first_down
              Examples.shown "Network Error" eq_refl)
    as (Hreq & _ & Hs & Hp & _ & He & _).
  repeat split; assumption.
Defined.



(** ** Numbers *)

Section NumberFacts.

Import JSNumber.

(** A positive number of [d] binary digits lies between [2^(d-1)] and
    [2^d]. *)
Lemma digits2_pos_bounds (m : positive) :
  2 ^ (Z.pos (digits2_pos m) - 1) <= Z.pos m < 2 ^ Z.pos (digits2_pos m).
Proof.
  induction m as [m IH | m IH |]; cbn [digits2_pos].
  - rewrite Pos2Z.inj_succ.
    replace (Z.succ (Z.pos (digits2_pos m)) - 1)
      with (Z.succ (Z.pos (digits2_pos m) - 1)) by lia.
    rewrite !Z.pow_succ_r by lia. lia.
  - rewrite Pos2Z.inj_succ.
    replace (Z.succ (Z.pos (digits2_pos m)) - 1)
      with (Z.succ (Z.pos (digits2_pos m) - 1)) by lia.
    rewrite !Z.pow_succ_r by lia. lia.
  - cbn. lia.
Qed.

(** A finite number of binary64 with an exponent above the least one has
    a mantissa of exactly 53 bits; any has one of at most 53 bits. *)
Lemma bounded_mantissa (m : positive) (e : Z) :
  bounded prec emax m e = true ->
  Z.pos m < 2 ^ 53 /\ (-1074 < e -> 2 ^ 52 <= Z.pos m).
Proof.
  unfold bounded, canonical_mantissa, fexp, emin, prec, emax.
  intros H. apply andb_prop in H as [H _]. apply Z.eqb_eq in H.
  pose proof (digits2_pos_bounds m) as [Hlo Hhi].
  split.
  - assert (Z.pos (digits2_pos m) <= 53) by lia.
    eapply Z.lt_le_trans; [exact Hhi |].
    apply Z.pow_le_mono_r; lia.
  - intros He.
    assert (Hd : Z.pos (digits2_pos m) = 53) by lia.
    rewrite Hd in Hlo. exact Hlo.
Qed.

(** On the numbers of binary64, [x > 35] holds exactly when the value of
    [x] is above 35. *)
Lemma gt_35_exact (x : number) :
  valid x -> (gt x (of_Z 35) = true <-> exceeds x 35).
Proof.
  unfold valid, gt, SFltb.
  change (of_Z 35) with (S754_finite false 4925812092436480 (-47)).
  destruct x as [s | s | | s m e]; cbn [valid_binary SFcompare exceeds].
  - intros _. split; [discriminate | lia].
  - intros _. destruct s; split; congruence.
  - intros _. split; [discriminate | tauto].
  - intros Hb. apply bounded_mantissa in Hb as [Hhi Hlo].
    destruct s.
    + split; [discriminate |]. intros H. exfalso.
      assert (0 < 2 ^ Z.max 0 (- e)) by (apply Z.pow_pos_nonneg; lia).
      assert (0 < 2 ^ Z.max 0 e) by (apply Z.pow_pos_nonneg; lia).
      nia.
    + destruct (Z.compare_spec (-47) e) as [He | He | He].
      * subst e.
        change (2 ^ Z.max 0 (- (-47))) with (2 ^ 47).
        change (2 ^ Z.max 0 (-47)) with 1.
        change (35 * 2 ^ 47) with (Z.pos 4925812092436480).
        rewrite Z.mul_1_r, Pos.compare_cont_spec. cbn [Pos.switch_Eq].
        unfold Z.lt. cbn [Z.compare].
        destruct (4925812092436480 ?= m)%positive; cbn; split; congruence.
      * split; [intros _ | reflexivity].
        specialize (Hlo ltac:(lia)).
        destruct (Z.le_gt_cases 0 e) as [Hpos | Hneg].
        -- rewrite (Z.max_l 0 (- e)), (Z.max_r 0 e) by lia.
           assert (1 <= 2 ^ e) by (apply (Z.pow_le_mono_r 2 0 e); lia).
           nia.
        -- rewrite (Z.max_r 0 (- e)), (Z.max_l 0 e) by lia.
           assert (2 ^ (- e) <= 2 ^ 46) by (apply Z.pow_le_mono_r; lia).
           lia.
      * split; [discriminate |]. intros H. exfalso.
        rewrite (Z.max_r 0 (- e)), (Z.max_l 0 e) in H by lia.
        assert (2 ^ 48 <= 2 ^ (- e)) by (apply Z.pow_le_mono_r; lia).
        lia.
Qed.

End NumberFacts.

(** ** What the pages show *)

Section Rendering.

Import JSNumber View.

Variable toString : number -> string.

(** The results panel once both results are stored and loading is over. *)
Lemma ResultsPanel_ready (st : Analyze.State)
    (s : Analyze.SentimentAnalysisResponse)
    (p : Analyze.SalesLossPredictionResponse) :
  Analyze.loading st = false ->
  Analyze.sentiment st = Some s ->
  Analyze.prediction st = Some p ->
  Analyze.ResultsPanel toString st
  = Ok (El "div" []
          [ El "h3" [] [Text "Results"];
            El "div" []
              [ El "div" []
                  [ El "div" [] [Text "Sentiment"];
                    El "div" []
                      [Text (toFixed toString (Analyze.average_sentiment s) 2
                               ++ " score")];
                    El "div" []
                      [Text (toString (Analyze.total_posts s) ++ " posts · "
                               ++ toFixed toString (Analyze.negative_percentage s) 1
                               ++ "% negative")] ];
                El "div" []
                  [ El "div" [] [Text "Prediction"];
                    El "div" []
                      [Text (toFixed toString (Analyze.predicted_drop_percentage p) 1
                               ++ "% projected drop")];
                    El "div" []
                      [Text ("Loss probability "
                               ++ toFixed toString
                                    (mul (Analyze.loss_probability p) (of_Z 100)) 1
                               ++ "% · Risk " ++ Analyze.risk_level p)];
                    El "div" [] [Text (Analyze.explanation p)] ];
                El "button" [("onClick", AHandler "navigate")]
                  [Text "Open Dashboard"] ] ]).
Proof.
  intros Hl Hs Hp.
  unfold Analyze.ResultsPanel, Analyze.ResultCards.
  rewrite Hl, Hs, Hp. reflexivity.
Qed.

(** The results panel in every other state: the placeholder while
    loading, the hint while there is no sentiment, and no card. *)
Lemma ResultsPanel_not_ready (st : Analyze.State) :
  Analyze.loading st = true \/ Analyze.sentiment st = None
    \/ Analyze.prediction st = None ->
  Analyze.ResultsPanel toString st
  = Ok (El "div" []
          (El "h3" [] [Text "Results"]
           :: (if Analyze.loading st then [Analyze.LoadingSkeleton 5] else [])
           ++ (if negb (Analyze.loading st) && negb (truthy (Analyze.sentiment st))
               then [Analyze.EmptyHint] else []))%list).
Proof.
  unfold Analyze.ResultsPanel.
  intros [H | [H | H]]; rewrite H;
    destruct (Analyze.loading st), (Analyze.sentiment st),
      (Analyze.prediction st); try discriminate; reflexivity.
Qed.

(** The KPI cards once the snapshot is stored and loading is over. *)
Lemma KpiGrid_loaded (st : Dashboard.State) (d : Dashboard.DashboardResponse) :
  Dashboard.loading st = false ->
  Dashboard.data st = Some d ->
  Dashboard.KpiGrid toString st
  = Ok (El "div" []
          [ Dashboard.KPICard "Average Sentiment"
              (toFixed toString (Dashboard.average_sentiment (Dashboard.kpis d)) 2)
              (Some "30d rolling")
              (Dashboard.kpiTone (Dashboard.risk_level (Dashboard.kpis d)));
            Dashboard.KPICard "% Negative"
              (toFixed toString (Dashboard.negative_percentage (Dashboard.kpis d)) 1
                 ++ "%")
              (Some "Twitter/Reddit blend")
              (if gt (Dashboard.negative_percentage (Dashboard.kpis d)) (of_Z 35)
               then "bad" else "warn");
            Dashboard.KPICard "Predicted Sales Drop"
              (toFixed toString (Dashboard.predicted_sales_drop (Dashboard.kpis d)) 1
                 ++ "%")
              (Some "Short-term")
              (Dashboard.kpiTone (Dashboard.risk_level (Dashboard.kpis d)));
            Dashboard.KPICard "Risk Level"
              (Dashboard.risk_level (Dashboard.kpis d)) None
              (Dashboard.kpiTone (Dashboard.risk_level (Dashboard.kpis d))) ]).
Proof.
  intros Hl Hd. unfold Dashboard.KpiGrid, Dashboard.KpiCards.
  rewrite Hl, Hd. reflexivity.
Qed.

End Rendering.

(** ** The results of an analysis and the KPI cards *)

Section Cards.

Import JSNumber View.

Variable toString : number -> string.

(** C5: after a submission whose two requests succeed, the results panel
    shows the returned values and nothing else is done to them than
    [toFixed]: the average sentiment with two decimals and " score", the
    predicted drop with one decimal and "% projected drop", the loss
    probability times 100 with one decimal and "%".  So 0.42 is shown as
    "0.42 score", 12.345 as "12.3% projected drop" and 0.5 as "50.0%",
    these three numbers being the binary64 values of the decimals. *)
Theorem results_panel_shows_values {Err : Type} (formatError : Err -> string)
    (api : Analyze.Backend Err) (st : Analyze.State)
    (s : Analyze.SentimentAnalysisResponse)
    (p : Analyze.SalesLossPredictionResponse) :
  Analyze.analyze_sentiment api (Analyze.request_body st) = inr s ->
  Analyze.predict_sales_loss api (Analyze.request_body st) = inr p ->
  Analyze.ResultsPanel toString (Analyze.after_submit formatError api st)
  = Ok (El "div" []
          [ El "h3" [] [Text "Results"];
            El "div" []
              [ El "div" []
                  [ El "div" [] [Text "Sentiment"];
                    El "div" []
                      [Text (toFixed toString (Analyze.average_sentiment s) 2
                               ++ " score")];
                    El "div" []
                      [Text (toString (Analyze.total_posts s) ++ " posts · "
                               ++ toFixed toString (Analyze.negative_percentage s) 1
                               ++ "% negative")] ];
                El "div" []
                  [ El "div" [] [Text "Prediction"];
                    El "div" []
                      [Text (toFixed toString (Analyze.predicted_drop_percentage p) 1
                               ++ "% projected drop")];
                    El "div" []
                      [Text ("Loss probability "
                               ++ toFixed toString
                                    (mul (Analyze.loss_probability p) (of_Z 100)) 1
                               ++ "% · Risk " ++ Analyze.risk_level p)];
                    El "div" [] [Text (Analyze.explanation p)] ];
                El "button" [("onClick", AHandler "navigate")]
                  [Text "Open Dashboard"] ] ])
  /\ toFixed toString lit_0_42 2 ++ " score" = "0.42 score"
  /\ toFixed toString lit_12_345 1 ++ "% projected drop" = "12.3% projected drop"
  /\ toFixed toString (mul lit_0_5 (of_Z 100)) 1 ++ "%" = "50.0%"
  /\ lit_0_42 = div (of_Z 42) (of_Z 100)
  /\ lit_12_345 = div (of_Z 12345) (of_Z 1000)
  /\ lit_0_5 = div (of_Z 5) (of_Z 10).
Proof.
  intros Ha Hb. split.
  - apply ResultsPanel_ready;
      unfold Analyze.after_submit; rewrite submit_cases; cbv zeta;
      rewrite Ha, Hb; reflexivity.
  - repeat split; vm_compute; reflexivity.
Qed.

(** C6: the tone of a risk level is "bad" for "High", "warn" for "Medium"
    and "good" for any other string; and when the risk level of the
    snapshot is "High", the Average Sentiment card and the Predicted
    Sales Drop card both have the tone "bad". *)
Theorem kpi_tone_of_risk (st : Dashboard.State) (d : Dashboard.DashboardResponse) :
  Dashboard.loading st = false ->
  Dashboard.data st = Some d ->
  Dashboard.kpiTone "High" = "bad"
  /\ Dashboard.kpiTone "Medium" = "warn"
  /\ (forall risk, risk <> "High" -> risk <> "Medium" ->
        Dashboard.kpiTone risk = "good")
  /\ (Dashboard.risk_level (Dashboard.kpis d) = "High" ->
      exists negative_card,
        Dashboard.KpiGrid toString st
        = Ok (El "div" []
                [ Dashboard.KPICard "Average Sentiment"
                    (toFixed toString
                       (Dashboard.average_sentiment (Dashboard.kpis d)) 2)
                    (Some "30d rolling") "bad";
                  negative_card;
                  Dashboard.KPICard "Predicted Sales Drop"
                    (toFixed toString
                       (Dashboard.predicted_sales_drop (Dashboard.kpis d)) 1 ++ "%")
                    (Some "Short-term") "bad";
                  Dashboard.KPICard "Risk Level" "High" None "bad" ])).
Proof.
  intros Hl Hd. repeat split.
  - intros risk Hh Hm. unfold Dashboard.kpiTone.
    destruct (String.eqb_spec risk "High") as [E | _]; [contradiction |].
    destruct (String.eqb_spec risk "Medium") as [E | _]; [contradiction |].
    reflexivity.
  - intros Hr. eexists.
    rewrite (KpiGrid_loaded toString st d Hl Hd), Hr. reflexivity.
Qed.

(** C7: the tone of the % Negative card is "bad" when
    [negative_percentage > 35] and "warn" otherwise; on the numbers of
    binary64 that is exactly when the value is above 35.  So 36 gives
    "bad" and 35 gives "warn".  The card is the same whatever the risk
    level of the snapshot. *)
Theorem negative_tone_threshold (st : Dashboard.State)
    (d : Dashboard.DashboardResponse) :
  Dashboard.loading st = false ->
  Dashboard.data st = Some d ->
  (forall risk,
      exists first third fourth,
        Dashboard.KpiGrid toString
          {| Dashboard.data := Some (Dashboard.with_risk_level d risk);
             Dashboard.error := Dashboard.error st;
             Dashboard.loading := Dashboard.loading st |}
        = Ok (El "div" []
                [ first;
                  Dashboard.KPICard "% Negative"
                    (toFixed toString
                       (Dashboard.negative_percentage (Dashboard.kpis d)) 1 ++ "%")
                    (Some "Twitter/Reddit blend")
                    (Dashboard.negativeTone
                       (Dashboard.negative_percentage (Dashboard.kpis d)));
                  third; fourth ]))
  /\ (exists first third fourth,
        Dashboard.KpiGrid toString st
        = Ok (El "div" []
                [ first;
                  Dashboard.KPICard "% Negative"
                    (toFixed toString
                       (Dashboard.negative_percentage (Dashboard.kpis d)) 1 ++ "%")
                    (Some "Twitter/Reddit blend")
                    (Dashboard.negativeTone
                       (Dashboard.negative_percentage (Dashboard.kpis d)));
                  third; fourth ]))
  /\ (forall x, Dashboard.negativeTone x = "bad" <-> gt x (of_Z 35) = true)
  /\ (forall x, Dashboard.negativeTone x = "warn" <-> gt x (of_Z 35) = false)
  /\ (forall x, valid x -> (Dashboard.negativeTone x = "bad" <-> exceeds x 35))
  /\ Dashboard.negativeTone (of_Z 36) = "bad"
  /\ Dashboard.negativeTone (of_Z 35) = "warn".
Proof.
  intros Hl Hd.
  assert (Hbad : forall x, Dashboard.negativeTone x = "bad" <-> gt x (of_Z 35) = true).
  { intros x. unfold Dashboard.negativeTone.
    destruct (gt x (of_Z 35)); split; congruence. }
  split; [| split; [| split; [exact Hbad | split; [| split; [| split]]]]].
  - intros risk. do 3 eexists.
    rewrite (KpiGrid_loaded toString _ (Dashboard.with_risk_level d risk));
      [reflexivity | exact Hl | reflexivity].
  - do 3 eexists. rewrite (KpiGrid_loaded toString st d Hl Hd). reflexivity.
  - intros x. unfold Dashboard.negativeTone.
    destruct (gt x (of_Z 35)); split; congruence.
  - intros x Hv. rewrite Hbad. apply gt_35_exact. exact Hv.
  - reflexivity.
  - reflexivity.
Qed.

End Cards.

(** ** Reading fetched fields *)

Section NullSafety.

Import JSNumber View.

Variable toString : number -> string.

(** Each panel of the Dashboard reads [data] without a check of its own,
    and fails on [null]. *)
Lemma dashboard_reads_fail_on_null (st : Dashboard.State) :
  Dashboard.data st = None ->
  Dashboard.KpiCards toString st = TypeError
  /\ Dashboard.SentimentTrend st = TypeError
  /\ Dashboard.SentimentDistribution st = TypeError
  /\ Dashboard.CommentVolume st = TypeError
  /\ Dashboard.SalesSeries st = TypeError
  /\ Dashboard.InsightList st = TypeError
  /\ Dashboard.AlertBanners st = TypeError.
Proof.
  intros H.
  unfold Dashboard.KpiCards, Dashboard.SentimentTrend,
    Dashboard.SentimentDistribution, Dashboard.CommentVolume,
    Dashboard.SalesSeries, Dashboard.InsightList, Dashboard.AlertBanners.
  rewrite H. repeat split.
Qed.

(** While loading, or without a snapshot, every panel of the Dashboard is
    its placeholder or empty. *)
Lemma dashboard_panels_guarded (st : Dashboard.State) :
  Dashboard.loading st = true \/ Dashboard.data st = None ->
  let skeleton n :=
    if Dashboard.loading st then [Dashboard.LoadingSkeleton n] else [] in
  Dashboard.KpiGrid toString st = Ok (El "div" [] (skeleton 4%nat))
  /\ Dashboard.Charts st
     = Ok [ El "div" []
              [ El "ChartCard" [("title", AStr "Sentiment Trend (30d)")]
                  (skeleton 6%nat);
                El "ChartCard" [("title", AStr "Sentiment Distribution")]
                  (skeleton 6%nat) ];
            El "div" []
              [ El "ChartCard" [("title", AStr "Comment Volume")]
                  (skeleton 6%nat);
                El "ChartCard" [("title", AStr "Actual vs Predicted Sales")]
                  (skeleton 6%nat) ] ]
  /\ Dashboard.Insights st
     = Ok (El "div" []
             (El "div" []
                [ El "h3" [] [Text "AI Insights"];
                  El "button" [("onClick", AHandler "fetchData")] [Text "Refresh"] ]
              :: skeleton 4%nat)).
Proof.
  unfold Dashboard.KpiGrid, Dashboard.Charts, Dashboard.ChartCard,
    Dashboard.Insights.
  intros [H | H]; rewrite H; cbv zeta.
  - repeat split.
  - destruct (Dashboard.loading st); repeat split.
Qed.

(** The Dashboard renders in every state. *)
Lemma DashboardPage_total (st : Dashboard.State) :
  exists v, Dashboard.DashboardPage toString st = Ok v.
Proof.
  destruct st as [[d |] e l].
  - unfold Dashboard.DashboardPage, Dashboard.KpiGrid, Dashboard.KpiCards,
      Dashboard.Charts, Dashboard.ChartCard, Dashboard.SentimentTrend,
      Dashboard.SentimentDistribution, Dashboard.CommentVolume,
      Dashboard.SalesSeries, Dashboard.Insights, Dashboard.InsightList,
      Dashboard.Alerts, Dashboard.AlertBanners, Dashboard.alerts_length,
      Dashboard.ErrorBanner.
    unfold when, when_all, get, bind.
    cbn [Dashboard.data Dashboard.loading Dashboard.error].
    destruct l, (Dashboard.alerts d) as [[| a rest] |], (nonempty e);
      eexists; reflexivity.
  - unfold Dashboard.DashboardPage, Dashboard.Alerts, Dashboard.ErrorBanner.
    destruct (dashboard_panels_guarded
                {| Dashboard.data := None; Dashboard.error := e;
                   Dashboard.loading := l |} (or_intror eq_refl))
      as (Hg & Hc & Hi).
    rewrite Hg, Hc, Hi. cbn.
    destruct (nonempty e); eexists; reflexivity.
Qed.

(** The Analyze page renders in every state. *)
Lemma AnalyzePage_total (st : Analyze.State) :
  exists v, Analyze.AnalyzePage toString st = Ok v.
Proof.
  unfold Analyze.AnalyzePage, Analyze.ActionRow, Analyze.ResultsPanel,
    Analyze.ResultCards.
  destruct (nonempty (Analyze.error st)), (Analyze.loading st),
    (Analyze.sentiment st), (Analyze.prediction st);
    eexists; reflexivity.
Qed.

(** C10: no view reads a field of [null].  Both pages render in every
    state, the first ones included (for the Dashboard: no data, loading).
    The cards of the Analyze page read the stored sentiment and
    prediction and would fail if one were [null], but the panel evaluates
    them only when loading is false and both are stored; otherwise it is
    made of the placeholder and the hint alone.  Every panel of the
    Dashboard reads [data] and would fail on [null], but is evaluated only
    when loading is false and [data] is stored; otherwise it is its
    placeholder or empty.  The alerts are reached through
    [data?.alerts?.length], which is [undefined] without data or without
    alerts, and then no banner is built. *)
Theorem rendering_never_reads_null :
  (forall st, exists v, Analyze.AnalyzePage toString st = Ok v)
  /\ (forall r, exists v, Analyze.AnalyzePage toString (Analyze.initial r) = Ok v)
  /\ (forall st,
        Analyze.ResultCards toString st = TypeError
        <-> Analyze.sentiment st = None \/ Analyze.prediction st = None)
  /\ (forall st,
        Analyze.loading st = true \/ Analyze.sentiment st = None
          \/ Analyze.prediction st = None ->
        Analyze.ResultsPanel toString st
        = Ok (El "div" []
                (El "h3" [] [Text "Results"]
                 :: (if Analyze.loading st then [Analyze.LoadingSkeleton 5] else [])
                 ++ (if negb (Analyze.loading st)
                        && negb (truthy (Analyze.sentiment st))
                     then [Analyze.EmptyHint] else []))%list))
  /\ (forall st, exists v, Dashboard.DashboardPage toString st = Ok v)
  /\ (Dashboard.data Dashboard.initial = None
      /\ Dashboard.loading Dashboard.initial = true
      /\ exists v, Dashboard.DashboardPage toString Dashboard.initial = Ok v)
  /\ (forall st,
        Dashboard.data st = None ->
        Dashboard.KpiCards toString st = TypeError
        /\ Dashboard.SentimentTrend st = TypeError
        /\ Dashboard.SentimentDistribution st = TypeError
        /\ Dashboard.CommentVolume st = TypeError
        /\ Dashboard.SalesSeries st = TypeError
        /\ Dashboard.InsightList st = TypeError
        /\ Dashboard.AlertBanners st = TypeError)
  /\ (forall st,
        Dashboard.loading st = true \/ Dashboard.data st = None ->
        let skeleton n :=
          if Dashboard.loading st then [Dashboard.LoadingSkeleton n] else [] in
        Dashboard.KpiGrid toString st = Ok (El "div" [] (skeleton 4%nat))
        /\ Dashboard.Charts st
           = Ok [ El "div" []
                    [ El "ChartCard" [("title", AStr "Sentiment Trend (30d)")]
                        (skeleton 6%nat);
                      El "ChartCard" [("title", AStr "Sentiment Distribution")]
                        (skeleton 6%nat) ];
                  El "div" []
                    [ El "ChartCard" [("title", AStr "Comment Volume")]
                        (skeleton 6%nat);
                      El "ChartCard" [("title", AStr "Actual vs Predicted Sales")]
                        (skeleton 6%nat) ] ]
        /\ Dashboard.Insights st
           = Ok (El "div" []
                   (El "div" []
                      [ El "h3" [] [Text "AI Insights"];
                        El "button" [("onClick", AHandler "fetchData")]
                          [Text "Refresh"] ]
                    :: skeleton 4%nat)))
  /\ (forall st,
        (Dashboard.data st = None \/
         exists d, Dashboard.data st = Some d /\ Dashboard.alerts d = None) ->
        Dashboard.alerts_length st = None /\ Dashboard.Alerts st = Ok []).
Proof.
  split; [exact (AnalyzePage_total) |].
  split; [intros r; apply AnalyzePage_total |].
  split.
  { intros st. unfold Analyze.ResultCards.
    destruct (Analyze.sentiment st), (Analyze.prediction st); cbn;
      split; intros H; try discriminate H; auto;
      destruct H as [H | H]; discriminate H. }
  split; [exact (ResultsPanel_not_ready toString) |].
  split; [exact DashboardPage_total |].
  split; [repeat split; apply DashboardPage_total |].
  split; [exact dashboard_reads_fail_on_null |].
  split; [exact dashboard_panels_guarded |].
  intros st [H | (d & H & Ha)];
    unfold Dashboard.Alerts, Dashboard.alerts_length; rewrite H;
    [| rewrite Ha]; split; reflexivity.
Qed.

End NullSafety.

(** ** Dates *)

Section DateFacts.

Import JSDate.

(** [YearFromTime t] is the largest year that starts at or before [t]. *)
Lemma YearFromTime_largest (t : Z) :
  TimeFromYear (YearFromTime t) <= t
  /\ (forall y, TimeFromYear y <= t -> y <= YearFromTime t).
Proof.
  unfold YearFromTime, TimeFromYear, Day, msPerDay.
  set (d := t / 86400000).
  assert (Hd : 86400000 * d <= t < 86400000 * (d + 1))
    by (unfold d; Z.div_mod_to_equations; lia).
  assert (Hy : DayFromYear (year_of_day d) <= d < DayFromYear (year_of_day d + 1)).
  { unfold year_of_day.
    set (y := 1970 + 400 * d / 146097).
    assert (Hest : DayFromYear (y - 1) <= d < DayFromYear (y + 2))
      by (unfold DayFromYear, y; Z.div_mod_to_equations; lia).
    destruct (Z.leb_spec (DayFromYear (y + 1)) d).
    - replace (y + 1 + 1) with (y + 2) by lia. lia.
    - destruct (Z.leb_spec (DayFromYear y) d).
      + lia.
      + replace (y - 1 + 1) with y by lia. lia. }
  split; [lia |].
  intros y Hle.
  destruct (Z.le_gt_cases y (year_of_day d)) as [Hok | Hgt]; [exact Hok |].
  exfalso.
  assert (DayFromYear (year_of_day d + 1) <= DayFromYear y)
    by (unfold DayFromYear; Z.div_mod_to_equations; lia).
  lia.
Qed.

Lemma MonthFromTime_range (t : Z) : 0 <= MonthFromTime t <= 11.
Proof.
  unfold MonthFromTime.
  repeat match goal with
         | |- context [if ?c then _ else _] => destruct c
         end; lia.
Qed.

(** Setting the day of the month to the current one minus [k] moves the
    date by [k] whole days, in a zone whose offset never changes and
    within the range of time values. *)
Lemma setDate_days_back (LocalTZA : Z -> bool -> Z) (offset now k : Z) :
  (forall t isUTC, LocalTZA t isUTC = offset) ->
  Z.abs (now - k * msPerDay) <= 8640000000000000 ->
  setDate LocalTZA (Some now)
    (option_map (fun d => d - k) (getDate LocalTZA (Some now)))
  = Some (now - k * msPerDay).
Proof.
  intros Hzone Hrange.
  unfold getDate, setDate, option_map, LocalTime, UTC.
  rewrite !Hzone.
  set (t := now + offset).
  pose proof (MonthFromTime_range t) as Hm.
  assert (Hday : MakeDay (YearFromTime t) (MonthFromTime t) (DateFromTime t - k)
                 = Day t - k).
  { unfold MakeDay.
    rewrite Z.div_small, Z.mod_small, Z.add_0_r by lia.
    unfold DateFromTime, DayWithinYear, InLeapYear. lia. }
  rewrite Hday.
  assert (Hdate : MakeDate (Day t - k) (TimeWithinDay t) = t - k * msPerDay).
  { unfold MakeDate, Day, TimeWithinDay, msPerDay.
    Z.div_mod_to_equations; lia. }
  rewrite Hdate.
  replace (t - k * msPerDay - offset) with (now - k * msPerDay) by (unfold t; lia).
  unfold TimeClip.
  destruct (Z.ltb_spec 8640000000000000 (Z.abs (now - k * msPerDay)));
    [lia | reflexivity].
Qed.

End DateFacts.

(** C8 fails on the code: [defaultDates] takes the day of the month in
    local time and prints the dates in UTC, and it reads the clock twice.
    In New York on the evening of 5 November 2025, three days after the
    end of daylight saving time, the range it returns ends on 6 November
    and is eight days long; and when the month changes between the two
    readings of the clock, the start date comes after the end date. *)
Theorem defaultDates_not_seven_days :
  JSDate.getDate Examples.new_york (Some Examples.evening_after_dst) = Some 5
  /\ Analyze.defaultDates Examples.new_york
       Examples.evening_after_dst Examples.evening_after_dst
     = Some {| Analyze.start := "2025-10-29"; Analyze.end_ := "2025-11-06" |}
  /\ Analyze.defaultDates Examples.utc_zone
       Examples.last_ms_of_january (Examples.last_ms_of_january + 1)
     = Some {| Analyze.start := "2024-02-24"; Analyze.end_ := "2024-01-31" |}.
Proof. repeat split; vm_compute; reflexivity. Qed.

(** On a fresh page with both endpoints up, the panel shows the three
    values of the specification's example. *)
Lemma results_panel_shows_values_witness :
  Analyze.analyze_sentiment Examples.both_up
    (Analyze.request_body Examples.fresh) = inr Examples.new_sentiment
  /\ Analyze.predict_sales_loss Examples.both_up
       (Analyze.request_body Examples.fresh) = inr Examples.new_prediction
  /\ Analyze.ResultsPanel Examples.integer_toString
       (Analyze.after_submit Examples.message_of Examples.both_up Examples.fresh)
     = View.Ok
         (View.El "div" []
            [ View.El "h3" [] [View.Text "Results"];
              View.El "div" []
                [ View.El "div" []
                    [ View.El "div" [] [View.Text "Sentiment"];
                      View.El "div" [] [View.Text "0.42 score"];
                      View.El "div" [] [View.Text "120 posts · 25.0% negative"] ];
                  View.El "div" []
                    [ View.El "div" [] [View.Text "Prediction"];
                      View.El "div" [] [View.Text "12.3% projected drop"];
                      View.El "div" []
                        [View.Text "Loss probability 50.0% · Risk Medium"];
                      View.El "div" [] [View.Text "new"] ];
                  View.El "button" [("onClick", View.AHandler "navigate")]
                    [View.Text "Open Dashboard"] ] ]).
Proof.
  split; [reflexivity | split; [reflexivity |]].
  destruct (results_panel_shows_values Examples.integer_toString
              Examples.message_of Examples.both_up Examples.fresh
              Examples.new_sentiment Examples.new_prediction eq_refl eq_refl)
    as [Hpanel _].
  rewrite Hpanel. vm_compute. reflexivity.
Defined.

(** With a loaded snapshot of risk level High, the two cards are bad. *)
Lemma kpi_tone_of_risk_witness :
  Dashboard.loading (Examples.loaded (Examples.snapshot "High" (JSNumber.of_Z 20)))
    = false
  /\ exists negative_card,
       Dashboard.KpiGrid Examples.integer_toString
         (Examples.loaded (Examples.snapshot "High" (JSNumber.of_Z 20)))
       = View.Ok
           (View.El "div" []
              [ Dashboard.KPICard "Average Sentiment" "0.42" (Some "30d rolling")
                  "bad";
                negative_card;
                Dashboard.KPICard "Predicted Sales Drop" "12.3%" (Some "Short-term")
                  "bad";
                Dashboard.KPICard "Risk Level" "High" None "bad" ]).
Proof.
  split; [reflexivity |].
  destruct (kpi_tone_of_risk Examples.integer_toString
              (Examples.loaded (Examples.snapshot "High" (JSNumber.of_Z 20)))
              (Examples.snapshot "High" (JSNumber.of_Z 20)) eq_refl eq_refl)
    as (_ & _ & _ & Hhigh).
  destruct (Hhigh eq_refl) as [card Hgrid].
  exists card. rewrite Hgrid. reflexivity.
Defined.

(** With a loaded snapshot of low risk and 36 percent negative posts, the
    % Negative card is bad. *)
Lemma negative_tone_threshold_witness :
  Dashboard.data (Examples.loaded (Examples.snapshot "Low" (JSNumber.of_Z 36)))
    = Some (Examples.snapshot "Low" (JSNumber.of_Z 36))
  /\ exists first third fourth,
       Dashboard.KpiGrid Examples.integer_toString
         (Examples.loaded (Examples.snapshot "Low" (JSNumber.of_Z 36)))
       = View.Ok
           (View.El "div" []
              [ first;
                Dashboard.KPICard "% Negative" "36.0%" (Some "Twitter/Reddit blend")
                  "bad";
                third; fourth ]).
Proof.
  split; [reflexivity |].
  destruct (negative_tone_threshold Examples.integer_toString
              (Examples.loaded (Examples.snapshot "Low" (JSNumber.of_Z 36)))
              (Examples.snapshot "Low" (JSNumber.of_Z 36)) eq_refl eq_refl)
    as (_ & (c1 & c3 & c4 & Hgrid) & _).
  exists c1, c3, c4. rewrite Hgrid. reflexivity.
Defined.

(** The first render of the Dashboard: no data, and no field read. *)
Lemma rendering_never_reads_null_witness :
  Dashboard.data Dashboard.initial = None
  /\ Dashboard.KpiCards Examples.integer_toString Dashboard.initial
     = View.TypeError
  /\ Dashboard.KpiGrid Examples.integer_toString Dashboard.initial
     = View.Ok (View.El "div" [] [Dashboard.LoadingSkeleton 4])
  /\ Dashboard.Alerts Dashboard.initial = View.Ok [].
Proof.
  destruct (rendering_never_reads_null Examples.integer_toString)
    as (_ & _ & _ & _ & _ & _ & Hfail & Hguard & Halerts).
  split; [reflexivity |].
  split; [exact (proj1 (Hfail Dashboard.initial eq_refl)) |].
  split; [exact (proj1 (Hguard Dashboard.initial (or_introl eq_refl))) |].
  exact (proj2 (Halerts Dashboard.initial (or_introl eq_refl))).
Defined.

(** On a fresh page with both endpoints up, loading is true after the
    first three events of the submission. *)
Lemma submit_loading_bracket_witness :
  Analyze.loading
    (Handler.state_after Analyze.apply Examples.fresh
       (Handler.trace
          (Analyze.submit Examples.message_of Examples.both_up Examples.fresh))
       3)
  = true.
Proof.
  destruct (submit_loading_bracket Examples.message_of Examples.both_up
              Examples.fresh) as (_ & _ & _ & Hmid).
  apply Hmid; [lia | vm_compute; lia].
Defined.

(** ** Further properties *)

Section Further.

Import JSNumber Handler View.

Variable toString : number -> string.

(** X1: the alert banners: none for an empty list of alerts, and otherwise one
    warning banner for each alert, in the order of the list. *)
Theorem alerts_one_banner_each (st : Dashboard.State)
    (d : Dashboard.DashboardResponse) (l : list string) :
  Dashboard.data st = Some d ->
  Dashboard.alerts d = Some l ->
  Dashboard.Alerts st = Ok (map (fun a => Dashboard.AlertBanner a "warn") l).
Proof.
  intros Hd Ha.
  unfold Dashboard.Alerts, Dashboard.alerts_length, Dashboard.AlertBanners.
  rewrite Hd. cbn [get bind]. rewrite Ha. destruct l; reflexivity.
Qed.

(** X3: with a sentiment stored and no prediction, the results panel shows
    its title alone: neither the cards nor the hint. *)
Theorem sentiment_alone_is_not_shown (st : Analyze.State)
    (s : Analyze.SentimentAnalysisResponse) :
  Analyze.loading st = false ->
  Analyze.sentiment st = Some s ->
  Analyze.prediction st = None ->
  Analyze.ResultsPanel toString st = Ok (El "div" [] [El "h3" [] [Text "Results"]]).
Proof.
  intros Hl Hs Hp. unfold Analyze.ResultsPanel. rewrite Hl, Hs, Hp. reflexivity.
Qed.

(** X4: a failed fetch of the Dashboard keeps the snapshot that was stored:
    the KPI cards are still those of the snapshot, and the formatted
    message is shown in an error banner next to them, unless it is the
    empty string, for which there is no banner. *)
Theorem fetch_error_beside_data {Err : Type} (formatError : Err -> string)
    (backend : Payload -> Err + Dashboard.DashboardResponse)
    (st : Dashboard.State) (d : Dashboard.DashboardResponse) (e : Err) :
  Dashboard.data st = Some d ->
  backend Dashboard.fetch_params = inl e ->
  Dashboard.data (Dashboard.after_fetch formatError backend st) = Some d
  /\ Dashboard.KpiGrid toString (Dashboard.after_fetch formatError backend st)
     = Dashboard.KpiGrid toString
         {| Dashboard.data := Some d; Dashboard.error := "";
            Dashboard.loading := false |}
  /\ Dashboard.ErrorBanner (Dashboard.after_fetch formatError backend st)
     = Ok (if String.eqb (formatError e) "" then []
           else [Dashboard.AlertBanner (formatError e) "error"]).
Proof.
  intros Hd He. unfold Dashboard.after_fetch.
  rewrite fetchData_cases; cbv zeta. rewrite He.
  cbn [trace fst commit updates fold_left Dashboard.apply Dashboard.data
         Dashboard.error Dashboard.loading].
  rewrite Hd. split; [reflexivity | split; [reflexivity |]].
  unfold Dashboard.ErrorBanner, nonempty.
  cbn [Dashboard.error].
  destruct (String.eqb (formatError e) ""); reflexivity.
Qed.

(** X5: a fetch of the Dashboard sets loading to true first and to false
    last, whether the request succeeds or fails; on failure it stores the
    formatted message and leaves the snapshot as it was, on success it
    stores the new snapshot and the error stays cleared. *)
Theorem fetchData_loading_bracket {Err : Type} (formatError : Err -> string)
    (backend : Payload -> Err + Dashboard.DashboardResponse)
    (st : Dashboard.State) :
  (exists rest, trace (Dashboard.fetchData formatError backend)
                = Update (Dashboard.setLoading true) :: rest)
  /\ (exists before, trace (Dashboard.fetchData formatError backend)
                     = (before ++ [Update (Dashboard.setLoading false)])%list)
  /\ Dashboard.loading (Dashboard.after_fetch formatError backend st) = false
  /\ Dashboard.error (Dashboard.after_fetch formatError backend st)
     = match backend Dashboard.fetch_params with
       | inl e => formatError e
       | inr _ => ""
       end
  /\ Dashboard.data (Dashboard.after_fetch formatError backend st)
     = match backend Dashboard.fetch_params with
       | inl _ => Dashboard.data st
       | inr d => Some d
       end.
Proof.
  unfold Dashboard.after_fetch. rewrite fetchData_cases; cbv zeta.
  destruct (backend Dashboard.fetch_params) as [e | d];
    (split; [eexists; reflexivity |]);
    (split; [| repeat split]);
    cbn [trace fst];
    match goal with
    | |- exists before, ?l = _ =>
        exists (removelast l); reflexivity
    end.
Qed.

(** The integer [toFixed] prints is the nearest one to the value scaled
    by [10^f], the upper one of two that are as near: it is the scaled
    value itself when the exponent is not negative, and otherwise it
    differs from it by a half at most. *)
Theorem nearest_scaled_is_nearest (m : positive) (e : Z) (f : nat) :
  (0 <= e -> nearest_scaled m e f = Z.pos m * 2 ^ e * 10 ^ Z.of_nat f)
  /\ (e < 0 ->
      2 * nearest_scaled m e f * 2 ^ (- e) - 2 ^ (- e)
        <= 2 * (Z.pos m * 10 ^ Z.of_nat f)
        < 2 * nearest_scaled m e f * 2 ^ (- e) + 2 ^ (- e)).
Proof.
  unfold nearest_scaled. split; intros He.
  - destruct (Z.leb_spec 0 e); lia.
  - destruct (Z.leb_spec 0 e); [lia |].
    set (p := Z.pos m * 10 ^ Z.of_nat f).
    assert (Hd : 0 < 2 ^ (- e)) by (apply Z.pow_pos_nonneg; lia).
    replace (2 ^ (- e + 1)) with (2 * 2 ^ (- e))
      by (rewrite Z.pow_add_r by lia; lia).
    set (D := 2 ^ (- e)) in *.
    pose proof (Z.div_mod (2 * p + D) (2 * D) ltac:(lia)) as Hdm.
    pose proof (Z.mod_pos_bound (2 * p + D) (2 * D) ltac:(lia)) as Hb.
    nia.
Qed.

End Further.

(** ** The default date range where it is right *)

Section DefaultRange.

Import JSDate.

Lemma length_append (s r : string) :
  String.length (s ++ r) = (String.length s + String.length r)%nat.
Proof. induction s as [| c s IH]; cbn; [reflexivity | rewrite IH; reflexivity]. Qed.

Lemma length_zeros (k : nat) : String.length (JSNumber.zeros k) = k.
Proof. induction k as [| k IH]; cbn; [reflexivity | rewrite IH; reflexivity]. Qed.

Lemma length_pad (width : nat) (s : string) :
  String.length (pad width s) = Nat.max width (String.length s).
Proof. unfold pad. rewrite length_append, length_zeros. lia. Qed.

(** The first characters of a string that starts with [s] are [s]. *)
Lemma substring_prefix (s r : string) :
  substring 0 (String.length s) (s ++ r) = s.
Proof.
  induction s as [| c s IH]; cbn.
  - destruct r; reflexivity.
  - rewrite IH. reflexivity.
Qed.

(** A number below 10000 has four digits at most. *)
Lemma digits_at_most_four (n : Z) :
  0 <= n <= 9999 -> (String.length (JSNumber.digits n) <= 4)%nat.
Proof.
  intros Hn.
  assert (Hall : forallb (fun k => String.length (JSNumber.digits (Z.of_nat k)) <=? 4)%nat
                   (seq 0 (Z.to_nat 10000)) = true) by (vm_compute; reflexivity).
  rewrite forallb_forall in Hall.
  specialize (Hall (Z.to_nat n)).
  rewrite Z2Nat.id in Hall by lia.
  apply Nat.leb_le, Hall, in_seq. lia.
Qed.

(** A number below 100 has two digits at most. *)
Lemma digits_at_most_two (n : Z) :
  0 <= n <= 99 -> (String.length (JSNumber.digits n) <= 2)%nat.
Proof.
  intros Hn.
  assert (Hall : forallb (fun k => String.length (JSNumber.digits (Z.of_nat k)) <=? 2)%nat
                   (seq 0 (Z.to_nat 100)) = true) by (vm_compute; reflexivity).
  rewrite forallb_forall in Hall.
  specialize (Hall (Z.to_nat n)).
  rewrite Z2Nat.id in Hall by lia.
  apply Nat.leb_le, Hall, in_seq. lia.
Qed.

(** A year has as many days as there are between its first day and the
    first day of the next year. *)
Lemma DaysInYear_spec (y : Z) :
  DayFromYear (y + 1) - DayFromYear y = DaysInYear y.
Proof.
  unfold DayFromYear, DaysInYear.
  destruct (Z.eqb_spec (y mod 4) 0), (Z.eqb_spec (y mod 100) 0),
    (Z.eqb_spec (y mod 400) 0); cbn [negb];
    Z.div_mod_to_equations; lia.
Qed.

Lemma DayWithinYear_range (t : Z) :
  0 <= DayWithinYear t < 365 + InLeapYear t.
Proof.
  unfold DayWithinYear, InLeapYear.
  pose proof (YearFromTime_largest t) as [Hlo Hmax].
  pose proof (DaysInYear_spec (YearFromTime t)) as Hlen.
  assert (Hnext : t < TimeFromYear (YearFromTime t + 1)).
  { destruct (Z.lt_ge_cases t (TimeFromYear (YearFromTime t + 1))) as [H | H];
      [exact H |].
    specialize (Hmax _ H). lia. }
  unfold TimeFromYear, Day, msPerDay in *.
  assert (Hdays : DaysInYear (YearFromTime t) = 365 \/ DaysInYear (YearFromTime t) = 366).
  { unfold DaysInYear.
    destruct (negb _); [auto |]. destruct (negb _); [auto |].
    destruct (negb _); auto. }
  destruct (Z.eqb_spec (DaysInYear (YearFromTime t)) 366);
    Z.div_mod_to_equations; lia.
Qed.

(** The day of the month lies between 1 and 31. *)
Lemma DateFromTime_range (t : Z) : 1 <= DateFromTime t <= 31.
Proof.
  unfold DateFromTime.
  pose proof (DayWithinYear_range t) as Hd.
  assert (Hleap : InLeapYear t = 0 \/ InLeapYear t = 1)
    by (unfold InLeapYear; destruct (_ =? _); auto).
  unfold MonthFromTime.
  repeat match goal with
         | |- context [if ?a <? ?b then _ else _] => destruct (Z.ltb_spec a b)
         end; cbn [month_start]; lia.
Qed.

(** From year 0 to year 9999 the date part of the ISO format has the ten
    characters of YYYY-MM-DD, and they are what [slice(0, 10)] keeps. *)
Lemma slice_of_ISO_string (t : Z) (iso : string) :
  0 <= YearFromTime t <= 9999 ->
  toISOString (Some t) = Some iso ->
  String.length (iso_date t) = 10%nat /\ slice_0_10 iso = iso_date t.
Proof.
  intros Hy Hiso. injection Hiso as <-.
  assert (Hlen : String.length (iso_date t) = 10%nat).
  { unfold iso_date, iso_year, two.
    destruct (Z.leb_spec 0 (YearFromTime t)); [| lia].
    destruct (Z.leb_spec (YearFromTime t) 9999); [| lia].
    cbn [andb]. rewrite !length_append, !length_pad. cbn [String.length].
    pose proof (digits_at_most_four (YearFromTime t) Hy).
    pose proof (MonthFromTime_range t).
    pose proof (DateFromTime_range t).
    pose proof (digits_at_most_two (MonthFromTime t + 1) ltac:(lia)).
    pose proof (digits_at_most_two (DateFromTime t) ltac:(lia)).
    lia. }
  split; [exact Hlen |].
  unfold slice_0_10. rewrite <- Hlen. apply substring_prefix.
Qed.

Lemma TimeFromYear_monotone (y y' : Z) :
  y <= y' -> TimeFromYear y <= TimeFromYear y'.
Proof.
  intros H. unfold TimeFromYear, DayFromYear, msPerDay.
  Z.div_mod_to_equations; lia.
Qed.

(** X2: in a zone whose offset never changes, with one reading of the clock
    and between the years 0 and 9999, the default range starts exactly
    seven days before it ends, and both dates are the UTC dates in the
    form YYYY-MM-DD. *)
Theorem defaultDates_steady_zone (LocalTZA : Z -> bool -> Z) (offset now : Z) :
  (forall t isUTC, LocalTZA t isUTC = offset) ->
  0 <= YearFromTime (now - 7 * msPerDay) ->
  YearFromTime now <= 9999 ->
  Analyze.defaultDates LocalTZA now now
  = Some {| Analyze.start := iso_date (now - 7 * msPerDay);
            Analyze.end_ := iso_date now |}
  /\ Day (now - 7 * msPerDay) = Day now - 7
  /\ String.length (iso_date (now - 7 * msPerDay)) = 10%nat
  /\ String.length (iso_date now) = 10%nat.
Proof.
  intros Hzone Hlo Hhi.
  pose proof (YearFromTime_largest (now - 7 * msPerDay)) as [Hs _].
  pose proof (YearFromTime_largest now) as [He Hmax].
  assert (Hle : YearFromTime (now - 7 * msPerDay) <= YearFromTime now)
    by (apply Hmax; unfold msPerDay in *; lia).
  assert (Hbelow : now < TimeFromYear 10000).
  { destruct (Z.lt_ge_cases now (TimeFromYear 10000)) as [H | H]; [exact H |].
    specialize (Hmax _ H). lia. }
  pose proof (TimeFromYear_monotone 0 _ Hlo) as Hfloor.
  change (TimeFromYear 0) with (-62167219200000) in Hfloor.
  change (TimeFromYear 10000) with 253402300800000 in Hbelow.
  assert (Hclip : Z.abs (now - 7 * msPerDay) <= 8640000000000000)
    by (unfold msPerDay in *; lia).
  unfold Analyze.defaultDates.
  rewrite (setDate_days_back LocalTZA offset now 7 Hzone Hclip).
  cbn [toISOString].
  destruct (slice_of_ISO_string (now - 7 * msPerDay) _ ltac:(lia) eq_refl)
    as [Hlen1 Hslice1].
  destruct (slice_of_ISO_string now _ ltac:(lia) eq_refl) as [Hlen2 Hslice2].
  rewrite Hslice1, Hslice2.
  repeat split; try assumption.
  unfold Day, msPerDay. Z.div_mod_to_equations; lia.
Qed.

End DefaultRange.

(** At noon UTC on 2 November 2025, in a zone without offset, the default
    range is 26 October to 2 November. *)
Lemma defaultDates_steady_zone_witness :
  Analyze.defaultDates Examples.utc_zone 1762084800000 1762084800000
  = Some {| Analyze.start := "2025-10-26"; Analyze.end_ := "2025-11-02" |}.
Proof.
  destruct (defaultDates_steady_zone Examples.utc_zone 0 1762084800000
              (fun _ _ => eq_refl)
              ltac:(vm_compute; discriminate) ltac:(vm_compute; discriminate))
    as [Hrange _].
  rewrite Hrange. vm_compute. reflexivity.
Defined.

(** A snapshot with two alerts gives two banners, in their order. *)
Lemma alerts_one_banner_each_witness :
  Dashboard.Alerts
    (Examples.loaded (Examples.snapshot "High" (JSNumber.of_Z 36)))
  = View.Ok [ Dashboard.AlertBanner "High risk" "warn";
              Dashboard.AlertBanner "Negative share above threshold" "warn" ].
Proof.
  exact (alerts_one_banner_each
           (Examples.loaded (Examples.snapshot "High" (JSNumber.of_Z 36)))
           (Examples.snapshot "High" (JSNumber.of_Z 36))
           ["High risk"; "Negative share above threshold"] eq_refl eq_refl).
Defined.

(** On a fresh page with the second endpoint down, the submission ends
    with a sentiment and no prediction, and the panel shows its title
    alone. *)
Lemma sentiment_alone_is_not_shown_witness :
  Analyze.sentiment
    (Analyze.after_submit Examples.message_of Examples.second_down Examples.fresh)
  = Some Examples.new_sentiment
  /\ Analyze.ResultsPanel Examples.integer_toString
       (Analyze.after_submit Examples.message_of Examples.second_down Examples.fresh)
     = View.Ok (View.El "div" [] [View.El "h3" [] [View.Text "Results"]]).
Proof.
  split; [reflexivity |].
  exact (sentiment_alone_is_not_shown Examples.integer_toString
           (Analyze.after_submit Examples.message_of Examples.second_down
              Examples.fresh)
           Examples.new_sentiment eq_refl eq_refl eq_refl).
Defined.

(** A refresh that fails keeps the loaded snapshot and adds the error
    banner. *)
Lemma fetch_error_beside_data_witness :
  Dashboard.data
    (Dashboard.after_fetch Examples.message_of (fun _ => inl "Network Error")
       (Examples.loaded (Examples.snapshot "Low" (JSNumber.of_Z 20))))
  = Some (Examples.snapshot "Low" (JSNumber.of_Z 20))
  /\ Dashboard.ErrorBanner
       (Dashboard.after_fetch Examples.message_of (fun _ => inl "Network Error")
          (Examples.loaded (Examples.snapshot "Low" (JSNumber.of_Z 20))))
     = View.Ok [Dashboard.AlertBanner "Network Error" "error"].
Proof.
  destruct (fetch_error_beside_data Examples.integer_toString
              Examples.message_of (fun _ => inl "Network Error")
              (Examples.loaded (Examples.snapshot "Low" (JSNumber.of_Z 20)))
              (Examples.snapshot "Low" (JSNumber.of_Z 20)) "Network Error"
              eq_refl eq_refl)
    as (Hdata & _ & Hbanner).
  split; [exact Hdata | rewrite Hbanner; reflexivity].
Defined.



(** ** Sessions on the Analyze page *)

Section AnalyzeSessions.

Import Handler View.

Context {Err : Type}.
Variable formatError : Err -> string.
Variable toString : JSNumber.number -> string.

(** An edit of the form changes neither the results nor the flags. *)
Lemma edit_keeps_results (st : Analyze.State) (ev : AnalyzeForm.UserEvent Err) :
  AnalyzeForm.is_edit ev = true ->
  Analyze.loading (AnalyzeForm.react formatError st ev) = Analyze.loading st
  /\ Analyze.sentiment (AnalyzeForm.react formatError st ev) = Analyze.sentiment st
  /\ Analyze.prediction (AnalyzeForm.react formatError st ev) = Analyze.prediction st
  /\ Analyze.error (AnalyzeForm.react formatError st ev) = Analyze.error st.
Proof.
  destruct ev; intros H; try discriminate H; repeat split.
Qed.

(** What one event keeps: loading is false between events, and there is
    no prediction without a sentiment. *)
Lemma react_keeps_invariant (st : Analyze.State) (ev : AnalyzeForm.UserEvent Err) :
  Analyze.loading st = false ->
  (Analyze.sentiment st = None -> Analyze.prediction st = None) ->
  Analyze.loading (AnalyzeForm.react formatError st ev) = false
  /\ (Analyze.sentiment (AnalyzeForm.react formatError st ev) = None ->
      Analyze.prediction (AnalyzeForm.react formatError st ev) = None).
Proof.
  intros Hl Hinv.
  destruct ev as [v | v | v | v | api]; try (split; assumption).
  unfold AnalyzeForm.react, AnalyzeForm.handler. rewrite Hl.
  rewrite submit_cases; cbv zeta.
  destruct (Analyze.analyze_sentiment api _) as [e | a];
    [| destruct (Analyze.predict_sales_loss api _) as [e | p]];
    (split; [reflexivity |]); cbn; try discriminate; exact Hinv.
Qed.

(** No event clears a stored result. *)
Lemma react_keeps_stored (st : Analyze.State) (ev : AnalyzeForm.UserEvent Err) :
  (Analyze.sentiment st <> None ->
   Analyze.sentiment (AnalyzeForm.react formatError st ev) <> None)
  /\ (Analyze.prediction st <> None ->
      Analyze.prediction (AnalyzeForm.react formatError st ev) <> None).
Proof.
  destruct ev as [v | v | v | v | api]; try (split; intros H; exact H).
  unfold AnalyzeForm.react, AnalyzeForm.handler.
  destruct (Analyze.loading st); [split; intros H; exact H |].
  rewrite submit_cases; cbv zeta.
  destruct (Analyze.analyze_sentiment api _) as [e | a];
    [| destruct (Analyze.predict_sales_loss api _) as [e | p]];
    split; intros H; cbn; try exact H; discriminate.
Qed.

Lemma session_keeps_stored (st : Analyze.State)
    (evs : list (AnalyzeForm.UserEvent Err)) :
  (Analyze.sentiment st <> None ->
   Analyze.sentiment (AnalyzeForm.session formatError st evs) <> None)
  /\ (Analyze.prediction st <> None ->
      Analyze.prediction (AnalyzeForm.session formatError st evs) <> None).
Proof.
  revert st. induction evs as [| ev evs IH]; intros st.
  - split; intros H; exact H.
  - cbn [AnalyzeForm.session fold_left].
    destruct (react_keeps_stored st ev) as [Hs Hp].
    destruct (IH (AnalyzeForm.react formatError st ev)) as [IHs IHp].
    split; intros H; [apply IHs, Hs, H | apply IHp, Hp, H].
Qed.

Lemma session_keeps_invariant (st : Analyze.State)
    (evs : list (AnalyzeForm.UserEvent Err)) :
  Analyze.loading st = false ->
  (Analyze.sentiment st = None -> Analyze.prediction st = None) ->
  Analyze.loading (AnalyzeForm.session formatError st evs) = false
  /\ (Analyze.sentiment (AnalyzeForm.session formatError st evs) = None ->
      Analyze.prediction (AnalyzeForm.session formatError st evs) = None).
Proof.
  revert st. induction evs as [| ev evs IH]; intros st Hl Hinv.
  - split; assumption.
  - cbn [AnalyzeForm.session fold_left].
    destruct (react_keeps_invariant st ev Hl Hinv) as [Hl' Hinv'].
    exact (IH _ Hl' Hinv').
Qed.

(** X6: whatever the user types, picks and submits from the first render
    on, and whatever the backend answers, the page comes to rest with
    loading false and never holds a prediction without a sentiment; a
    stored sentiment or prediction is never cleared by what follows; and
    the hint to run an analysis is what the results panel shows exactly
    as long as no sentiment is stored. *)
Theorem session_results_invariant (r : Analyze.DateRange)
    (evs : list (AnalyzeForm.UserEvent Err)) :
  Analyze.loading (AnalyzeForm.session formatError (Analyze.initial r) evs) = false
  /\ (Analyze.sentiment (AnalyzeForm.session formatError (Analyze.initial r) evs)
        = None ->
      Analyze.prediction (AnalyzeForm.session formatError (Analyze.initial r) evs)
        = None)
  /\ (forall more,
        Analyze.sentiment (AnalyzeForm.session formatError (Analyze.initial r) evs)
          <> None ->
        Analyze.sentiment
          (AnalyzeForm.session formatError (Analyze.initial r) (evs ++ more))
          <> None)
  /\ (forall more,
        Analyze.prediction (AnalyzeForm.session formatError (Analyze.initial r) evs)
          <> None ->
        Analyze.prediction
          (AnalyzeForm.session formatError (Analyze.initial r) (evs ++ more))
          <> None)
  /\ (Analyze.ResultsPanel toString
        (AnalyzeForm.session formatError (Analyze.initial r) evs)
      = Ok (El "div" [] [El "h3" [] [Text "Results"]; Analyze.EmptyHint])
      <-> Analyze.sentiment
            (AnalyzeForm.session formatError (Analyze.initial r) evs) = None).
Proof.
  destruct (session_keeps_invariant (Analyze.initial r) evs eq_refl
              (fun _ => eq_refl)) as [Hl Hinv].
  split; [exact Hl | split; [exact Hinv |]].
  split; [| split].
  - intros more H. unfold AnalyzeForm.session. rewrite fold_left_app.
    apply (session_keeps_stored _ more), H.
  - intros more H. unfold AnalyzeForm.session. rewrite fold_left_app.
    apply (session_keeps_stored _ more), H.
  - unfold Analyze.ResultsPanel, Analyze.ResultCards, Analyze.EmptyHint.
    rewrite Hl.
    destruct (Analyze.sentiment _) as [s |].
    + destruct (Analyze.prediction _) as [p |]; cbn;
        split; intros H; discriminate H.
    + rewrite (Hinv eq_refl). cbn. split; reflexivity.
Qed.

End AnalyzeSessions.

(** ** The form, the button and the message *)

Section FormFacts.

Import Handler View.

Context {Err : Type}.
Variable formatError : Err -> string.
Variable toString : JSNumber.number -> string.

(** While a submission runs, loading is true. *)
Lemma submit_loading_between (api : Analyze.Backend Err) (st : Analyze.State)
    (n : nat) :
  (1 <= n)%nat ->
  (n < List.length (trace (Analyze.submit formatError api st)))%nat ->
  Analyze.loading
    (state_after Analyze.apply st (trace (Analyze.submit formatError api st)) n)
  = true.
Proof.
  rewrite submit_cases; cbv zeta.
  destruct (Analyze.analyze_sentiment api _) as [e | a];
    [| destruct (Analyze.predict_sales_loss api _) as [e | p]];
    intros Hlo Hhi; cbn [trace fst List.length] in Hhi;
    do 9 (destruct n as [| n]; [first [lia | reflexivity] |]); lia.
Qed.

(** X7: what the form shows is what a submission sends.  The five inputs
    show the values that the request body holds under product_name,
    brand_name, platform (always YouTube, in a disabled input),
    start_date and end_date; every request of a submission carries that
    body, the second request the same one as the first; and a value
    typed into an input is, in the next body, under the key of that
    input, the other four keys keeping their values. *)
Theorem form_values_are_sent (st : Analyze.State) (api : Analyze.Backend Err)
    (v : string) :
  (exists row,
      AnalyzeForm.InputPanel st
      = Ok (El "div" []
              [ El "div" []
                  [ El "div" []
                      [El "p" [] [Text "Input"];
                       El "h2" [] [Text "Product Analysis"]];
                    El "button" [("onClick", AHandler "navigate")]
                      [Text "Go to Dashboard"] ];
                El "div" []
                  [ AnalyzeForm.Input "Product name"
                      [("value", AStr (Analyze.product st));
                       ("onChange", AHandler "setProduct")];
                    AnalyzeForm.Input "Brand name"
                      [("value", AStr (Analyze.brand st));
                       ("onChange", AHandler "setBrand")];
                    AnalyzeForm.Input "Platform"
                      [("value", AStr "YouTube"); ("disabled", ABool true)];
                    El "div" []
                      [ AnalyzeForm.Input "Start date"
                          [("type", AStr "date");
                           ("value", AStr (Analyze.start (Analyze.range st)));
                           ("onChange", AHandler "setRange")];
                        AnalyzeForm.Input "End date"
                          [("type", AStr "date");
                           ("value", AStr (Analyze.end_ (Analyze.range st)));
                           ("onChange", AHandler "setRange")] ] ];
                row ]))
  /\ Analyze.request_body st
     = [ ("product_name", Analyze.product st);
         ("brand_name", Analyze.brand st);
         ("platform", "YouTube");
         ("start_date", Analyze.start (Analyze.range st));
         ("end_date", Analyze.end_ (Analyze.range st)) ]
  /\ Forall (fun r => snd r = Analyze.request_body st)
       (requests (trace (Analyze.submit formatError api st)))
  /\ Analyze.request_body
       (AnalyzeForm.react formatError st (AnalyzeForm.TypeProduct v))
     = [ ("product_name", v);
         ("brand_name", Analyze.brand st);
         ("platform", "YouTube");
         ("start_date", Analyze.start (Analyze.range st));
         ("end_date", Analyze.end_ (Analyze.range st)) ]
  /\ Analyze.request_body
       (AnalyzeForm.react formatError st (AnalyzeForm.TypeBrand v))
     = [ ("product_name", Analyze.product st);
         ("brand_name", v);
         ("platform", "YouTube");
         ("start_date", Analyze.start (Analyze.range st));
         ("end_date", Analyze.end_ (Analyze.range st)) ]
  /\ Analyze.request_body
       (AnalyzeForm.react formatError st (AnalyzeForm.PickStart v))
     = [ ("product_name", Analyze.product st);
         ("brand_name", Analyze.brand st);
         ("platform", "YouTube");
         ("start_date", v);
         ("end_date", Analyze.end_ (Analyze.range st)) ]
  /\ Analyze.request_body
       (AnalyzeForm.react formatError st (AnalyzeForm.PickEnd v))
     = [ ("product_name", Analyze.product st);
         ("brand_name", Analyze.brand st);
         ("platform", "YouTube");
         ("start_date", Analyze.start (Analyze.range st));
         ("end_date", v) ].
Proof.
  assert (Hyt : forall s, Analyze.platform_string (Analyze.platform s) = "YouTube")
    by (intros s; destruct (Analyze.platform s); reflexivity).
  split.
  { unfold AnalyzeForm.InputPanel.
    destruct (AnalyzePage_total toString st) as [page Hpage].
    unfold Analyze.AnalyzePage in Hpage.
    destruct (Analyze.ActionRow st) as [row |]; [| discriminate Hpage].
    exists row. reflexivity. }
  split; [unfold Analyze.request_body; rewrite Hyt; reflexivity |].
  split.
  { rewrite submit_cases; cbv zeta.
    destruct (Analyze.analyze_sentiment api _) as [e | a];
      [| destruct (Analyze.predict_sales_loss api _) as [e | p]];
      cbn; repeat constructor. }
  repeat split; unfold Analyze.request_body; rewrite Hyt; reflexivity.
Qed.

(** X8: a value typed or a date picked while a submission is in flight
    changes nothing of the submission.  Wherever the edit falls among
    the events of the submission, the requests are those of the
    submission alone, with the values the form had when the button was
    clicked, and the final state is the one the same edit would give
    after the submission. *)
Theorem edit_during_submission (st : Analyze.State) (api : Analyze.Backend Err)
    (ev : AnalyzeForm.UserEvent Err) (n : nat) :
  AnalyzeForm.is_edit ev = true ->
  commit Analyze.apply st
    (firstn n (trace (Analyze.submit formatError api st))
       ++ trace (AnalyzeForm.handler formatError st ev)
       ++ skipn n (trace (Analyze.submit formatError api st)))%list
  = AnalyzeForm.react formatError (Analyze.after_submit formatError api st) ev
  /\ requests
       (firstn n (trace (Analyze.submit formatError api st))
          ++ trace (AnalyzeForm.handler formatError st ev)
          ++ skipn n (trace (Analyze.submit formatError api st)))%list
     = requests (trace (Analyze.submit formatError api st)).
Proof.
  intros Hedit.
  unfold AnalyzeForm.react, Analyze.after_submit.
  rewrite submit_cases; cbv zeta.
  destruct ev as [v | v | v | v | api']; try discriminate Hedit;
    (destruct (Analyze.analyze_sentiment api _) as [e | a];
     [| destruct (Analyze.predict_sales_loss api _) as [e | p]]);
    do 9 (destruct n as [| n]; [split; reflexivity |]);
    destruct n; split; reflexivity.
Qed.

(** X9: while a submission runs, after its first event and before its
    last, the results panel shows the placeholder and nothing else (no
    earlier result), the button is disabled and reads "Analyzing...", and
    a click on it runs nothing. *)
Theorem submission_in_flight_view (st : Analyze.State)
    (api : Analyze.Backend Err) (n : nat) :
  (1 <= n)%nat ->
  (n < List.length (trace (Analyze.submit formatError api st)))%nat ->
  Analyze.ResultsPanel toString
    (state_after Analyze.apply st (trace (Analyze.submit formatError api st)) n)
  = Ok (El "div" [] [El "h3" [] [Text "Results"]; Analyze.LoadingSkeleton 5])
  /\ (exists message,
        Analyze.ActionRow
          (state_after Analyze.apply st
             (trace (Analyze.submit formatError api st)) n)
        = Ok (El "div" []
                (El "button"
                   [("onClick", AHandler "submit"); ("disabled", ABool true)]
                   [Text "Analyzing..."]
                 :: message)))
  /\ (forall again : Analyze.Backend Err,
        trace
          (AnalyzeForm.handler formatError
             (state_after Analyze.apply st
                (trace (Analyze.submit formatError api st)) n)
             (AnalyzeForm.ClickRun again))
        = []).
Proof.
  intros Hlo Hhi.
  pose proof (submit_loading_between api st n Hlo Hhi) as Hl.
  unfold Analyze.ResultsPanel, Analyze.ActionRow, AnalyzeForm.handler.
  rewrite Hl. repeat split.
  destruct (nonempty _); eexists; reflexivity.
Qed.

(** X10: the message under the form after a submission is that of this
    submission alone: the formatted error of the request that failed, or
    none when both requests succeeded, whatever message was there
    before; the button is enabled again and reads "Run analysis".  A
    failure whose formatted message is empty shows no message. *)
Theorem submission_error_message (st : Analyze.State)
    (api : Analyze.Backend Err) :
  Analyze.error (Analyze.after_submit formatError api st)
  = match Analyze.analyze_sentiment api (Analyze.request_body st),
          Analyze.predict_sales_loss api (Analyze.request_body st) with
    | inl e, _ => formatError e
    | inr _, inl e => formatError e
    | inr _, inr _ => ""
    end
  /\ Analyze.ActionRow (Analyze.after_submit formatError api st)
     = Ok (El "div" []
             (El "button"
                [("onClick", AHandler "submit"); ("disabled", ABool false)]
                [Text "Run analysis"]
              :: (if String.eqb (Analyze.error (Analyze.after_submit formatError api st)) ""
                  then []
                  else [El "div" []
                          [Text (Analyze.error
                                   (Analyze.after_submit formatError api st))]]))).
Proof.
  unfold Analyze.after_submit, Analyze.ActionRow, nonempty.
  rewrite submit_cases; cbv zeta.
  destruct (Analyze.analyze_sentiment api _) as [e | a];
    [| destruct (Analyze.predict_sales_loss api _) as [e | p]];
    (split; [reflexivity |]);
    cbn [trace fst commit updates fold_left Analyze.apply Analyze.error
           Analyze.loading];
    try (destruct (String.eqb (formatError e) "")); reflexivity.
Qed.

End FormFacts.

(** ** The panels of the Dashboard *)

Section DashboardPanels.

Import Handler View.

Context {Err : Type}.
Variable formatError : Err -> string.
Variable toString : JSNumber.number -> string.

Lemma length_mapi_from {A B : Type} (f : nat -> A -> B) (xs : list A) (k : nat) :
  List.length (mapi_from k f xs) = List.length xs.
Proof.
  revert k. induction xs as [| x xs IH]; intros k; cbn;
    [reflexivity | rewrite IH; reflexivity].
Qed.

Lemma nth_error_mapi_from {A B : Type} (f : nat -> A -> B) (xs : list A)
    (k i : nat) :
  nth_error (mapi_from k f xs) i = option_map (f (k + i)%nat) (nth_error xs i).
Proof.
  revert k i. induction xs as [| x xs IH]; intros k i.
  - destruct i; reflexivity.
  - destruct i as [| i]; cbn.
    + rewrite Nat.add_0_r. reflexivity.
    + rewrite IH. replace (S k + i)%nat with (k + S i)%nat by lia. reflexivity.
Qed.

(** X11: the pie chart has one slice and one cell for each category of
    the distribution, in the order of the categories: the slice carries
    the name and the count, and the cell of position [i] is filled with
    the colour of position [i mod 3] of the three colours, so a fourth
    category takes the first colour again and no cell is left without a
    colour. *)
Theorem pie_slices_and_cells (st : Dashboard.State)
    (d : Dashboard.DashboardResponse) :
  Dashboard.data st = Some d ->
  exists slices cells,
    Dashboard.SentimentDistribution st
    = Ok (El "ResponsiveContainer" []
            [ El "PieChart" []
                [ El "Pie" [("data", ARows slices); ("dataKey", AStr "value")] cells;
                  El "Legend" [] []; El "Tooltip" [] [] ] ])
    /\ List.length slices = List.length (Dashboard.sentiment_distribution d)
    /\ List.length cells = List.length (Dashboard.sentiment_distribution d)
    /\ (forall i name count,
          nth_error (Dashboard.sentiment_distribution d) i = Some (name, count) ->
          nth_error slices i = Some [("name", JStr name); ("value", JNum count)]
          /\ exists colour,
               nth_error Dashboard.PIE_COLORS (i mod 3) = Some colour
               /\ nth_error cells i = Some (El "Cell" [("fill", AStr colour)] [])).
Proof.
  intros Hd. unfold Dashboard.SentimentDistribution. rewrite Hd. cbn [get bind].
  do 2 eexists. split; [reflexivity |].
  unfold Dashboard.entries, Dashboard.keys, mapi.
  split; [apply length_map |].
  split; [rewrite length_mapi_from; apply length_map |].
  intros i name count Hi. split.
  - rewrite nth_error_map, Hi. reflexivity.
  - assert (Hlt : (i mod 3 < 3)%nat) by (apply Nat.mod_upper_bound; lia).
    destruct (nth_error Dashboard.PIE_COLORS (i mod 3)) as [colour |] eqn:Hc.
    + exists colour. split; [reflexivity |].
      rewrite nth_error_mapi_from, nth_error_map, Hi. cbn [option_map Nat.add].
      unfold Dashboard.PieCell. change (List.length Dashboard.PIE_COLORS) with 3%nat.
      rewrite (nth_error_nth _ _ _ Hc). reflexivity.
    + apply nth_error_None in Hc.
      change (List.length Dashboard.PIE_COLORS) with 3%nat in Hc. lia.
Qed.

(** While a fetch runs, loading is true, and up to the answer the stored
    snapshot is the one from before. *)
Lemma fetch_in_flight_state
    (backend : Payload -> Err + Dashboard.DashboardResponse)
    (st : Dashboard.State) (n : nat) :
  (1 <= n <= 4)%nat ->
  Dashboard.loading
    (state_after Dashboard.apply st
       (trace (Dashboard.fetchData formatError backend)) n) = true
  /\ Dashboard.data
       (state_after Dashboard.apply st
          (trace (Dashboard.fetchData formatError backend)) n)
     = Dashboard.data st
  /\ ((2 <= n)%nat ->
      Dashboard.error
        (state_after Dashboard.apply st
           (trace (Dashboard.fetchData formatError backend)) n) = "").
Proof.
  rewrite fetchData_cases; cbv zeta. intros Hn.
  destruct (backend Dashboard.fetch_params) as [e | d];
    do 5 (destruct n as [| n]; [first [lia | repeat split; intros; lia] |]);
    lia.
Qed.

(** X12: during a Refresh, from its first event until the answer is in,
    the KPI cards, the four charts and the insights are replaced by the
    placeholders of the first render, although the snapshot is still
    stored; the alert banners of that snapshot stay on the page, since
    they do not depend on loading; and from the second event on the
    error banner of an earlier failure is gone. *)
Theorem refresh_in_flight_view
    (backend : Payload -> Err + Dashboard.DashboardResponse)
    (st : Dashboard.State) (n : nat) :
  (1 <= n <= 4)%nat ->
  Dashboard.KpiGrid toString
    (state_after Dashboard.apply st
       (trace (Dashboard.fetchData formatError backend)) n)
  = Ok (El "div" [] [Dashboard.LoadingSkeleton 4])
  /\ Dashboard.Charts
       (state_after Dashboard.apply st
          (trace (Dashboard.fetchData formatError backend)) n)
     = Dashboard.Charts Dashboard.initial
  /\ Dashboard.Insights
       (state_after Dashboard.apply st
          (trace (Dashboard.fetchData formatError backend)) n)
     = Dashboard.Insights Dashboard.initial
  /\ Dashboard.data
       (state_after Dashboard.apply st
          (trace (Dashboard.fetchData formatError backend)) n)
     = Dashboard.data st
  /\ Dashboard.Alerts
       (state_after Dashboard.apply st
          (trace (Dashboard.fetchData formatError backend)) n)
     = Dashboard.Alerts st
  /\ ((2 <= n)%nat ->
      Dashboard.ErrorBanner
        (state_after Dashboard.apply st
           (trace (Dashboard.fetchData formatError backend)) n) = Ok []).
Proof.
  intros Hn.
  destruct (fetch_in_flight_state backend st n Hn) as (Hl & Hd & He).
  set (mid := state_after Dashboard.apply st _ n) in *.
  destruct (dashboard_panels_guarded toString mid (or_introl Hl))
    as (Hgrid & Hcharts & Hins).
  destruct (dashboard_panels_guarded toString Dashboard.initial
              (or_introl eq_refl)) as (_ & Hcharts0 & Hins0).
  rewrite Hgrid, Hcharts, Hins, Hcharts0, Hins0, Hl.
  repeat split; try assumption.
  - unfold Dashboard.Alerts, Dashboard.alerts_length, Dashboard.AlertBanners.
    rewrite Hd. reflexivity.
  - intros H2. unfold Dashboard.ErrorBanner. rewrite (He H2). reflexivity.
Qed.

End DashboardPanels.

(** ** Fetches of the Dashboard, one after the other and overlapping *)

Section DashboardFetches.

Import Handler EventLoop.

Context {Err : Type}.
Variable formatError : Err -> string.

(** What one fetch leaves. *)
Lemma after_fetch_state
    (backend : Payload -> Err + Dashboard.DashboardResponse)
    (st : Dashboard.State) :
  Dashboard.after_fetch formatError backend st
  = match backend Dashboard.fetch_params with
    | inl e =>
        {| Dashboard.data := Dashboard.data st;
           Dashboard.error := formatError e;
           Dashboard.loading := false |}
    | inr d =>
        {| Dashboard.data := Some d; Dashboard.error := "";
           Dashboard.loading := false |}
    end.
Proof.
  unfold Dashboard.after_fetch. rewrite fetchData_cases; cbv zeta.
  destruct (backend Dashboard.fetch_params); reflexivity.
Qed.

(** X13: after any sequence of fetches, each finished before the next,
    the stored snapshot is the one of the last fetch that succeeded, or
    the one from before when none did: a failure never clears it.  The
    error is that of the very last fetch alone, its formatted message
    when it failed and none when it succeeded, and loading is false. *)
Theorem fetches_keep_last_success (st : Dashboard.State)
    (backends : list (Payload -> Err + Dashboard.DashboardResponse)) :
  Dashboard.data (DashboardSession.fetches formatError st backends)
  = match DashboardSession.last_success
            (map (fun backend => backend Dashboard.fetch_params) backends) with
    | Some d => Some d
    | None => Dashboard.data st
    end
  /\ (forall earlier last,
        backends = (earlier ++ [last])%list ->
        Dashboard.loading (DashboardSession.fetches formatError st backends) = false
        /\ Dashboard.error (DashboardSession.fetches formatError st backends)
           = match last Dashboard.fetch_params with
             | inl e => formatError e
             | inr _ => ""
             end).
Proof.
  split.
  - revert st. induction backends as [| b bs IH]; intros st; [reflexivity |].
    cbn [DashboardSession.fetches fold_left map DashboardSession.last_success].
    unfold DashboardSession.fetches in IH. rewrite IH, after_fetch_state.
    destruct (DashboardSession.last_success _); [reflexivity |].
    destruct (b Dashboard.fetch_params); reflexivity.
  - intros earlier last ->.
    unfold DashboardSession.fetches. rewrite fold_left_app.
    cbn [fold_left]. rewrite after_fetch_state.
    destruct (last Dashboard.fetch_params); split; reflexivity.
Qed.

(** The two steps of a fetch: up to the request, and from its answer. *)
Lemma fetchData_steps (backend : Payload -> Err + Dashboard.DashboardResponse) :
  steps (trace (Dashboard.fetchData formatError backend))
  = [ [ Update (Dashboard.setLoading true); Update (Dashboard.setError "");
        Request "GET" Dashboard.get_dashboard_data_url Dashboard.fetch_params ];
      match backend Dashboard.fetch_params with
      | inl e =>
          [ Rejected Dashboard.get_dashboard_data_url;
            Update (Dashboard.setError (formatError e));
            Update (Dashboard.setLoading false) ]
      | inr d =>
          [ Resolved Dashboard.get_dashboard_data_url;
            Update (Dashboard.setData (Some d));
            Update (Dashboard.setLoading false) ]
      end ].
Proof.
  rewrite fetchData_cases; cbv zeta.
  destruct (backend Dashboard.fetch_params); reflexivity.
Qed.

Lemma last_step_left {Act : Type} (s : list (Event Act)) :
  interleaving [s] [] s.
Proof.
  pose proof (left_step s [] [] [] (both_done (Act := Act))) as H.
  rewrite app_nil_r in H. exact H.
Qed.

Lemma last_step_right {Act : Type} (s : list (Event Act)) :
  interleaving [] [s] s.
Proof.
  pose proof (right_step s [] [] [] (both_done (Act := Act))) as H.
  rewrite app_nil_r in H. exact H.
Qed.

(** X14: the Refresh button is never disabled and a fetch is never
    cancelled, so two fetches can overlap.  However their steps
    interleave, the page ends with loading false and no request pending,
    and with the snapshot that one of the two orders of finished fetches
    would leave.  When the second fetch is started while the first is in
    flight and is answered first, the answer of the first, older request
    is the one that stays; as soon as one of the two has its answer,
    loading is false while the other request is still pending; and when
    the first fetch fails after the second one has started, its error
    message stays on the page although the second fetch succeeds. *)
Theorem overlapping_fetches
    (first second : Payload -> Err + Dashboard.DashboardResponse)
    (st : Dashboard.State) :
  exists a1 a2 b1 b2,
    steps (trace (Dashboard.fetchData formatError first)) = [a1; a2]
    /\ steps (trace (Dashboard.fetchData formatError second)) = [b1; b2]
    /\ (forall t,
          interleaving [a1; a2] [b1; b2] t ->
          Dashboard.loading (commit Dashboard.apply st t) = false
          /\ pending t = 0%nat
          /\ (Dashboard.data (commit Dashboard.apply st t)
              = Dashboard.data
                  (Dashboard.after_fetch formatError second
                     (Dashboard.after_fetch formatError first st))
              \/ Dashboard.data (commit Dashboard.apply st t)
                 = Dashboard.data
                     (Dashboard.after_fetch formatError first
                        (Dashboard.after_fetch formatError second st))))
    /\ interleaving [a1; a2] [b1; b2] (a1 ++ b1 ++ b2 ++ a2)%list
    /\ Dashboard.data (commit Dashboard.apply st (a1 ++ b1 ++ b2 ++ a2)%list)
       = Dashboard.data
           (Dashboard.after_fetch formatError first
              (Dashboard.after_fetch formatError second st))
    /\ Dashboard.loading (commit Dashboard.apply st (a1 ++ b1 ++ b2)%list) = false
    /\ pending (a1 ++ b1 ++ b2)%list = 1%nat
    /\ interleaving [a1; a2] [b1; b2] (a1 ++ b1 ++ a2 ++ b2)%list
    /\ Dashboard.error (commit Dashboard.apply st (a1 ++ b1 ++ a2 ++ b2)%list)
       = match second Dashboard.fetch_params, first Dashboard.fetch_params with
         | inl e, _ => formatError e
         | inr _, inl e => formatError e
         | inr _, inr _ => ""
         end.
Proof.
  do 4 eexists.
  split; [apply fetchData_steps |]. split; [apply fetchData_steps |].
  rewrite !after_fetch_state.
  split.
  { intros t Ht.
    repeat match goal with
           | H : interleaving _ _ _ |- _ => inversion H; subst; clear H
           end;
      destruct (first Dashboard.fetch_params), (second Dashboard.fetch_params);
      (split; [reflexivity | split; [reflexivity |]]);
      first [left; reflexivity | right; reflexivity]. }
  split.
  { apply left_step, right_step, right_step, last_step_left. }
  split.
  { destruct (first Dashboard.fetch_params), (second Dashboard.fetch_params);
      reflexivity. }
  split.
  { destruct (second Dashboard.fetch_params); reflexivity. }
  split.
  { destruct (second Dashboard.fetch_params); reflexivity. }
  split.
  { apply left_step, right_step, left_step, last_step_right. }
  destruct (first Dashboard.fetch_params), (second Dashboard.fetch_params);
    reflexivity.
Qed.

End DashboardFetches.

(** ** The default date range in any zone *)

Section DefaultRangeAnyZone.

Import JSDate.

Lemma YearFromTime_monotone (t t' : Z) :
  t <= t' -> YearFromTime t <= YearFromTime t'.
Proof.
  intros H.
  pose proof (YearFromTime_largest t) as [Hlo _].
  pose proof (YearFromTime_largest t') as [_ Hmax].
  apply Hmax. lia.
Qed.

(** Between the years 0 and 9999 a time value is within the range of
    dates. *)
Lemma year_range_in_clip (t : Z) :
  0 <= YearFromTime t <= 9999 -> Z.abs t <= 8640000000000000.
Proof.
  intros [Hlo Hhi].
  pose proof (YearFromTime_largest t) as [Hs Hmax].
  assert (Hbelow : t < TimeFromYear 10000).
  { destruct (Z.lt_ge_cases t (TimeFromYear 10000)) as [H | H]; [exact H |].
    specialize (Hmax _ H). lia. }
  pose proof (TimeFromYear_monotone 0 _ Hlo) as Hfloor.
  change (TimeFromYear 0) with (-62167219200000) in Hfloor.
  change (TimeFromYear 10000) with 253402300800000 in Hbelow.
  lia.
Qed.

(** What [setDate] makes of a date [d] and of the day of the month of a
    date [e] minus [k], when [d] and [e] fall on the same day of the
    month in local time: the local time of [d] moved back by [k] days,
    read as a local time. *)
Lemma setDate_back_in_zone (LocalTZA : Z -> bool -> Z) (d e k : Z) :
  DateFromTime (LocalTime LocalTZA e) = DateFromTime (LocalTime LocalTZA d) ->
  setDate LocalTZA (Some d)
    (option_map (fun day => day - k) (getDate LocalTZA (Some e)))
  = TimeClip (UTC LocalTZA (LocalTime LocalTZA d - k * msPerDay)).
Proof.
  intros Hsame. unfold getDate, setDate, option_map. rewrite Hsame.
  set (t := LocalTime LocalTZA d).
  pose proof (MonthFromTime_range t) as Hm.
  assert (Hday : MakeDay (YearFromTime t) (MonthFromTime t) (DateFromTime t - k)
                 = Day t - k).
  { unfold MakeDay.
    rewrite Z.div_small, Z.mod_small, Z.add_0_r by lia.
    unfold DateFromTime, DayWithinYear, InLeapYear. lia. }
  rewrite Hday.
  assert (Hdate : MakeDate (Day t - k) (TimeWithinDay t) = t - k * msPerDay).
  { unfold MakeDate, Day, TimeWithinDay, msPerDay.
    Z.div_mod_to_equations; lia. }
  rewrite Hdate. reflexivity.
Qed.

(** X15: with one reading of the clock, in any zone whose offsets stay
    within one day of each other, between the years 0 and 9999, the
    default range never fails and is six, seven or eight days long: its
    end is the UTC date of now, its start the UTC date of a time between
    eight and six days before now, both in the form YYYY-MM-DD. *)
Theorem defaultDates_any_zone (LocalTZA : Z -> bool -> Z) (lowest highest now : Z) :
  (forall t isUTC, lowest <= LocalTZA t isUTC <= highest) ->
  highest - lowest <= msPerDay ->
  0 <= YearFromTime (now - 8 * msPerDay) ->
  YearFromTime now <= 9999 ->
  exists start_time,
    Analyze.defaultDates LocalTZA now now
    = Some {| Analyze.start := iso_date start_time;
              Analyze.end_ := iso_date now |}
    /\ now - 8 * msPerDay <= start_time <= now - 6 * msPerDay
    /\ Day now - 8 <= Day start_time <= Day now - 6
    /\ String.length (iso_date start_time) = 10%nat
    /\ String.length (iso_date now) = 10%nat.
Proof.
  intros Hzone Hspan Hlo Hhi.
  set (start_time := UTC LocalTZA (LocalTime LocalTZA now - 7 * msPerDay)).
  assert (Hbounds : now - 8 * msPerDay <= start_time <= now - 6 * msPerDay).
  { unfold start_time, UTC, LocalTime.
    pose proof (Hzone now true).
    pose proof (Hzone (now + LocalTZA now true - 7 * msPerDay) false).
    unfold msPerDay in *. lia. }
  assert (Hy1 : 0 <= YearFromTime start_time <= 9999).
  { split.
    - apply Z.le_trans with (1 := Hlo), YearFromTime_monotone. lia.
    - apply Z.le_trans with (2 := Hhi), YearFromTime_monotone.
      unfold msPerDay in *. lia. }
  assert (Hy2 : 0 <= YearFromTime now <= 9999).
  { split; [| exact Hhi].
    apply Z.le_trans with (1 := Hlo), YearFromTime_monotone.
    unfold msPerDay. lia. }
  exists start_time.
  unfold Analyze.defaultDates.
  rewrite (setDate_back_in_zone LocalTZA now now 7 eq_refl).
  fold start_time. unfold TimeClip.
  pose proof (year_range_in_clip start_time Hy1) as Hclip.
  destruct (Z.ltb_spec 8640000000000000 (Z.abs start_time)); [lia |].
  cbn [toISOString].
  destruct (slice_of_ISO_string start_time _ Hy1 eq_refl) as [Hlen1 Hslice1].
  destruct (slice_of_ISO_string now _ Hy2 eq_refl) as [Hlen2 Hslice2].
  rewrite Hslice1, Hslice2.
  repeat split; try assumption; try lia;
    unfold Day, msPerDay in *; Z.div_mod_to_equations; lia.
Qed.

(** X16: the two readings of the clock give the same range as a single
    reading whenever they fall on the same day of the month in local time
    and on the same UTC day.  Then, in a zone whose offset never changes
    and between the years 0 and 9999, the range is the one of the second
    reading alone: its end is the UTC date of the readings and its start
    the UTC date of exactly seven days before. *)
Theorem defaultDates_two_readings (LocalTZA : Z -> bool -> Z)
    (offset now_end now_start : Z) :
  (forall t isUTC, LocalTZA t isUTC = offset) ->
  DateFromTime (now_end + offset) = DateFromTime (now_start + offset) ->
  Day now_end = Day now_start ->
  0 <= YearFromTime (now_start - 7 * msPerDay) ->
  YearFromTime now_start <= 9999 ->
  Analyze.defaultDates LocalTZA now_end now_start
  = Analyze.defaultDates LocalTZA now_start now_start
  /\ Analyze.defaultDates LocalTZA now_end now_start
     = Some {| Analyze.start := iso_date (now_start - 7 * msPerDay);
               Analyze.end_ := iso_date now_start |}
  /\ Day (now_start - 7 * msPerDay) = Day now_end - 7.
Proof.
  intros Hzone Hsame Hday Hlo Hhi.
  assert (Hy1 : 0 <= YearFromTime (now_start - 7 * msPerDay) <= 9999).
  { split; [exact Hlo |].
    apply Z.le_trans with (2 := Hhi), YearFromTime_monotone.
    unfold msPerDay. lia. }
  assert (Hy2 : 0 <= YearFromTime now_start <= 9999).
  { split; [| exact Hhi].
    apply Z.le_trans with (1 := Hlo), YearFromTime_monotone.
    unfold msPerDay. lia. }
  assert (Hboth : forall e,
             DateFromTime (e + offset) = DateFromTime (now_start + offset) ->
             Day e = Day now_start ->
             Analyze.defaultDates LocalTZA e now_start
             = Some {| Analyze.start := iso_date (now_start - 7 * msPerDay);
                       Analyze.end_ := iso_date now_start |}).
  { intros e He Hd.
    assert (Hiso : iso_date e = iso_date now_start).
    { unfold iso_date, DateFromTime, MonthFromTime, DayWithinYear, InLeapYear,
        YearFromTime.
      rewrite Hd. reflexivity. }
    assert (Hy3 : 0 <= YearFromTime e <= 9999).
    { unfold YearFromTime in *. rewrite Hd. exact Hy2. }
    unfold Analyze.defaultDates.
    rewrite (setDate_back_in_zone LocalTZA now_start e 7)
      by (unfold LocalTime; rewrite !Hzone; exact He).
    unfold UTC, LocalTime. rewrite !Hzone.
    replace (now_start + offset - 7 * msPerDay - offset)
      with (now_start - 7 * msPerDay) by lia.
    unfold TimeClip.
    pose proof (year_range_in_clip _ Hy1) as Hclip.
    destruct (Z.ltb_spec 8640000000000000 (Z.abs (now_start - 7 * msPerDay)));
      [lia |].
    cbn [toISOString].
    destruct (slice_of_ISO_string (now_start - 7 * msPerDay) _ Hy1 eq_refl)
      as [_ Hslice1].
    destruct (slice_of_ISO_string e _ Hy3 eq_refl) as [_ Hslice2].
    rewrite Hslice1, Hslice2, Hiso. reflexivity. }
  split; [| split].
  - rewrite (Hboth now_end Hsame Hday), (Hboth now_start eq_refl eq_refl).
    reflexivity.
  - exact (Hboth now_end Hsame Hday).
  - rewrite Hday. unfold Day, msPerDay. Z.div_mod_to_equations; lia.
Qed.

End DefaultRangeAnyZone.

(** ** The first load of the Dashboard and the tones of its cards *)

Section FirstLoad.

Import Handler View.

Context {Err : Type}.
Variable formatError : Err -> string.
Variable toString : JSNumber.number -> string.

(** X17: the tones of the four KPI cards of a loaded snapshot.  The
    Average Sentiment, Predicted Sales Drop and Risk Level cards always
    have one and the same tone, which is good, warn or bad; the
    % Negative card has its own, which is warn or bad and never good,
    whatever the numbers and the risk level. *)
Theorem kpi_card_tones (st : Dashboard.State) (d : Dashboard.DashboardResponse) :
  Dashboard.loading st = false ->
  Dashboard.data st = Some d ->
  exists v1 v2 v3 v4 risk_tone negative_tone,
    Dashboard.KpiGrid toString st
    = Ok (El "div" []
            [ Dashboard.KPICard "Average Sentiment" v1 (Some "30d rolling") risk_tone;
              Dashboard.KPICard "% Negative" v2 (Some "Twitter/Reddit blend")
                negative_tone;
              Dashboard.KPICard "Predicted Sales Drop" v3 (Some "Short-term")
                risk_tone;
              Dashboard.KPICard "Risk Level" v4 None risk_tone ])
    /\ (risk_tone = "good" \/ risk_tone = "warn" \/ risk_tone = "bad")
    /\ (negative_tone = "warn" \/ negative_tone = "bad")
    /\ negative_tone <> "good".
Proof.
  intros Hl Hd. rewrite (KpiGrid_loaded toString st d Hl Hd).
  do 6 eexists. split; [reflexivity |].
  split; [| split].
  - unfold Dashboard.kpiTone.
    destruct (String.eqb _ "High"); [auto |].
    destruct (String.eqb _ "Medium"); auto.
  - destruct (JSNumber.gt _ _); auto.
  - destruct (JSNumber.gt _ _); discriminate.
Qed.

(** X18: the first load.  The first render shows placeholders only.  When
    the fetch of the first render succeeds, the page comes to show the
    four KPI cards of the snapshot and no error banner.  When it fails,
    no placeholder is left and there is nothing to show in their stead:
    the KPI grid is empty, the chart cards and the insights panel are
    empty frames, there is no alert, and the error banner carries the
    formatted message. *)
Theorem first_load (backend : Payload -> Err + Dashboard.DashboardResponse) :
  Dashboard.KpiGrid toString Dashboard.initial
    = Ok (El "div" [] [Dashboard.LoadingSkeleton 4])
  /\ Dashboard.ErrorBanner Dashboard.initial = Ok []
  /\ (forall d,
        backend Dashboard.fetch_params = inr d ->
        Dashboard.data
          (commit Dashboard.apply Dashboard.initial
             (trace (Dashboard.on_mount formatError backend))) = Some d
        /\ Dashboard.KpiGrid toString
             (commit Dashboard.apply Dashboard.initial
                (trace (Dashboard.on_mount formatError backend)))
           = Dashboard.KpiGrid toString
               {| Dashboard.data := Some d; Dashboard.error := "";
                  Dashboard.loading := false |}
        /\ Dashboard.ErrorBanner
             (commit Dashboard.apply Dashboard.initial
                (trace (Dashboard.on_mount formatError backend))) = Ok [])
  /\ (forall e,
        backend Dashboard.fetch_params = inl e ->
        formatError e <> "" ->
        Dashboard.DashboardPage toString
          (commit Dashboard.apply Dashboard.initial
             (trace (Dashboard.on_mount formatError backend)))
        = Ok (El "div" []
                [ El "div" []
                    [ El "div" [] [];
                      El "div" []
                        [ El "ChartCard" [("title", AStr "Sentiment Trend (30d)")] [];
                          El "ChartCard" [("title", AStr "Sentiment Distribution")] [] ];
                      El "div" []
                        [ El "ChartCard" [("title", AStr "Comment Volume")] [];
                          El "ChartCard"
                            [("title", AStr "Actual vs Predicted Sales")] [] ];
                      El "div" []
                        [ El "div" []
                            [ El "h3" [] [Text "AI Insights"];
                              El "button" [("onClick", AHandler "fetchData")]
                                [Text "Refresh"] ] ] ];
                  Dashboard.SidePanel;
                  Dashboard.AlertBanner (formatError e) "error" ])).
Proof.
  split; [reflexivity | split; [reflexivity |]].
  unfold Dashboard.on_mount. split.
  - intros d Hd. rewrite fetchData_cases; cbv zeta. rewrite Hd.
    repeat split.
  - intros e He Hmsg. rewrite fetchData_cases; cbv zeta. rewrite He.
    cbn [trace fst commit updates fold_left Dashboard.apply Dashboard.data
           Dashboard.error Dashboard.loading Dashboard.initial].
    unfold Dashboard.DashboardPage, Dashboard.ErrorBanner, nonempty.
    cbn [Dashboard.error].
    destruct (String.eqb_spec (formatError e) "") as [E | _];
      [contradiction | reflexivity].
Qed.

End FirstLoad.

(** A session: a product typed, then a submission whose second request
    fails, then a submission whose first request fails.  The sentiment of
    the first submission is still stored at the end. *)
Lemma session_results_invariant_witness :
  Analyze.sentiment
    (AnalyzeForm.session Examples.message_of (Analyze.initial Examples.week)
       ([AnalyzeForm.TypeProduct "Phone"; AnalyzeForm.ClickRun Examples.second_down]
          ++ [AnalyzeForm.ClickRun Examples.first_down]))
  <> None.
Proof.
  destruct (session_results_invariant Examples.message_of
              Examples.integer_toString Examples.week
              [AnalyzeForm.TypeProduct "Phone";
               AnalyzeForm.ClickRun Examples.second_down])
    as (_ & _ & Hkeep & _).
  apply Hkeep. vm_compute. discriminate.
Defined.

(** A brand typed after the first request of a submission has resolved. *)
Lemma edit_during_submission_witness :
  Handler.requests
    (firstn 4
       (Handler.trace
          (Analyze.submit Examples.message_of Examples.both_up Examples.fresh))
       ++ Handler.trace
            (AnalyzeForm.handler Examples.message_of Examples.fresh
               (AnalyzeForm.TypeBrand "RedNova"))
       ++ skipn 4
            (Handler.trace
               (Analyze.submit Examples.message_of Examples.both_up Examples.fresh)))%list
  = Handler.requests
      (Handler.trace
         (Analyze.submit Examples.message_of Examples.both_up Examples.fresh)).
Proof.
  exact (proj2 (edit_during_submission Examples.message_of Examples.fresh
                  Examples.both_up (AnalyzeForm.TypeBrand "RedNova") 4 eq_refl)).
Defined.

(** With an earlier analysis on screen, the panel shows the placeholder
    alone while the first request of a new submission is awaited. *)
Lemma submission_in_flight_view_witness :
  Analyze.ResultsPanel Examples.integer_toString
    (Handler.state_after Analyze.apply Examples.shown
       (Handler.trace
          (Analyze.submit Examples.message_of Examples.both_up Examples.shown))
       3)
  = View.Ok
      (View.El "div" []
         [View.El "h3" [] [View.Text "Results"]; Analyze.LoadingSkeleton 5]).
Proof.
  apply (submission_in_flight_view Examples.message_of Examples.integer_toString
           Examples.shown Examples.both_up 3);
    [lia | vm_compute; lia].
Defined.

(** Four categories: the fourth cell takes the first colour again. *)
Lemma pie_slices_and_cells_witness :
  exists slices cells,
    Dashboard.SentimentDistribution
      (Examples.loaded (Examples.snapshot "Low" (JSNumber.of_Z 20)))
    = View.Ok
        (View.El "ResponsiveContainer" []
           [ View.El "PieChart" []
               [ View.El "Pie"
                   [("data", View.ARows slices); ("dataKey", View.AStr "value")]
                   cells;
                 View.El "Legend" [] []; View.El "Tooltip" [] [] ] ])
    /\ nth_error cells 3
       = Some (View.El "Cell" [("fill", View.AStr "#22d3ee")] []).
Proof.
  destruct (pie_slices_and_cells
              (Examples.loaded (Examples.snapshot "Low" (JSNumber.of_Z 20)))
              (Examples.snapshot "Low" (JSNumber.of_Z 20)) eq_refl)
    as (slices & cells & Hview & _ & _ & Hnth).
  exists slices, cells. split; [exact Hview |].
  destruct (Hnth 3%nat "mixed" (JSNumber.of_Z 1) eq_refl)
    as (_ & colour & Hcolour & Hcell).
  injection Hcolour as <-. exact Hcell.
Defined.

(** A Refresh with a snapshot of two alerts on the page: while the
    request is awaited, the cards are the placeholder and the two
    banners stay. *)
Lemma refresh_in_flight_view_witness :
  Dashboard.KpiGrid Examples.integer_toString
    (Handler.state_after Dashboard.apply
       (Examples.loaded (Examples.snapshot "High" (JSNumber.of_Z 36)))
       (Handler.trace
          (Dashboard.fetchData Examples.message_of (fun _ => inl "Network Error")))
       3)
  = View.Ok (View.El "div" [] [Dashboard.LoadingSkeleton 4])
  /\ Dashboard.Alerts
       (Handler.state_after Dashboard.apply
          (Examples.loaded (Examples.snapshot "High" (JSNumber.of_Z 36)))
          (Handler.trace
             (Dashboard.fetchData Examples.message_of
                (fun _ => inl "Network Error")))
          3)
     = View.Ok [ Dashboard.AlertBanner "High risk" "warn";
                 Dashboard.AlertBanner "Negative share above threshold" "warn" ].
Proof.
  destruct (refresh_in_flight_view Examples.message_of Examples.integer_toString
              (fun _ => inl "Network Error")
              (Examples.loaded (Examples.snapshot "High" (JSNumber.of_Z 36)))
              3 ltac:(lia))
    as (Hgrid & _ & _ & _ & Halerts & _).
  split; [exact Hgrid |]. rewrite Halerts. reflexivity.
Defined.

(** Three fetches, the second of which succeeds: its snapshot is the one
    stored at the end, with the error of the third. *)
Lemma fetches_keep_last_success_witness :
  Dashboard.data
    (DashboardSession.fetches Examples.message_of Dashboard.initial
       [ (fun _ => inl "Network Error");
         (fun _ => inr (Examples.snapshot "Low" (JSNumber.of_Z 20)));
         (fun _ => inl "Timeout") ])
  = Some (Examples.snapshot "Low" (JSNumber.of_Z 20))
  /\ Dashboard.error
       (DashboardSession.fetches Examples.message_of Dashboard.initial
          [ (fun _ => inl "Network Error");
            (fun _ => inr (Examples.snapshot "Low" (JSNumber.of_Z 20)));
            (fun _ => inl "Timeout") ])
     = "Timeout".
Proof.
  destruct (fetches_keep_last_success Examples.message_of Dashboard.initial
              [ (fun _ => inl "Network Error");
                (fun _ => inr (Examples.snapshot "Low" (JSNumber.of_Z 20)));
                (fun _ => inl "Timeout") ])
    as [Hdata Hlast].
  split; [exact Hdata |].
  exact (proj2 (Hlast [ (fun _ => inl "Network Error");
                        (fun _ => inr (Examples.snapshot "Low" (JSNumber.of_Z 20))) ]
                  (fun _ => inl "Timeout") eq_refl)).
Defined.

(** A first fetch that fails late and a second one that succeeds in the
    meantime: the new snapshot is stored, and the old error stays. *)
Lemma overlapping_fetches_witness :
  exists a1 a2 b1 b2,
    EventLoop.interleaving [a1; a2] [b1; b2] (a1 ++ b1 ++ b2 ++ a2)%list
    /\ Dashboard.error
         (Handler.commit Dashboard.apply Dashboard.initial
            (a1 ++ b1 ++ b2 ++ a2)%list)
       = "Network Error"
    /\ Dashboard.data
         (Handler.commit Dashboard.apply Dashboard.initial
            (a1 ++ b1 ++ b2 ++ a2)%list)
       = Some (Examples.snapshot "Low" (JSNumber.of_Z 20)).
Proof.
  destruct (overlapping_fetches Examples.message_of
              (fun _ => inl "Network Error")
              (fun _ => inr (Examples.snapshot "Low" (JSNumber.of_Z 20)))
              Dashboard.initial)
    as (a1 & a2 & b1 & b2 & Ha & Hb & _ & Hil & Hdata & _).
  exists a1, a2, b1, b2.
  split; [exact Hil |].
  rewrite fetchData_steps in Ha, Hb.
  injection Ha as <- <-. injection Hb as <- <-.
  split; reflexivity.
Defined.

(** New York on the evening of 5 November 2025: the range is eight days
    long, within the bounds. *)
Lemma defaultDates_any_zone_witness :
  exists start_time,
    Analyze.defaultDates Examples.new_york
      Examples.evening_after_dst Examples.evening_after_dst
    = Some {| Analyze.start := JSDate.iso_date start_time;
              Analyze.end_ := JSDate.iso_date Examples.evening_after_dst |}
    /\ JSDate.Day Examples.evening_after_dst - 8
         <= JSDate.Day start_time
         <= JSDate.Day Examples.evening_after_dst - 6.
Proof.
  destruct (defaultDates_any_zone Examples.new_york (-18000000) (-14400000)
              Examples.evening_after_dst) as (start_time & Hrange & _ & Hdays & _).
  - intros t isUTC. unfold Examples.new_york.
    destruct isUTC; destruct (_ <? _); lia.
  - vm_compute. discriminate.
  - vm_compute. discriminate.
  - vm_compute. discriminate.
  - exists start_time. split; assumption.
Defined.

(** Two readings a millisecond apart at noon. *)
Lemma defaultDates_two_readings_witness :
  Analyze.defaultDates Examples.utc_zone 1762084800000 1762084800001
  = Some {| Analyze.start := "2025-10-26"; Analyze.end_ := "2025-11-02" |}.
Proof.
  destruct (defaultDates_two_readings Examples.utc_zone 0
              1762084800000 1762084800001
              (fun _ _ => eq_refl) ltac:(vm_compute; reflexivity)
              ltac:(vm_compute; reflexivity)
              ltac:(vm_compute; discriminate) ltac:(vm_compute; discriminate))
    as (_ & Hrange & _).
  rewrite Hrange. vm_compute. reflexivity.
Defined.

(** The readings have to fall on the same UTC day: five hours west of
    Greenwich, two readings a millisecond apart around midnight UTC fall
    on the same local day, the 6th of November 2025, and the range is
    six days long, where either reading alone gives seven. *)
Example two_readings_across_utc_midnight :
  JSDate.DateFromTime (1762473599999 + -18000000)
  = JSDate.DateFromTime (1762473600000 + -18000000)
  /\ Analyze.defaultDates (fun _ _ => -18000000) 1762473599999 1762473600000
     = Some {| Analyze.start := "2025-10-31"; Analyze.end_ := "2025-11-06" |}
  /\ Analyze.defaultDates (fun _ _ => -18000000) 1762473599999 1762473599999
     = Some {| Analyze.start := "2025-10-30"; Analyze.end_ := "2025-11-06" |}
  /\ Analyze.defaultDates (fun _ _ => -18000000) 1762473600000 1762473600000
     = Some {| Analyze.start := "2025-10-31"; Analyze.end_ := "2025-11-07" |}.
Proof.
  repeat split; vm_compute; reflexivity.
Qed.

(** The cards of a snapshot of high risk with 20 percent negative posts:
    three are bad, the % Negative card is warn. *)
Lemma kpi_card_tones_witness :
  exists v1 v2 v3 v4 risk_tone negative_tone,
    Dashboard.KpiGrid Examples.integer_toString
      (Examples.loaded (Examples.snapshot "High" (JSNumber.of_Z 20)))
    = View.Ok
        (View.El "div" []
           [ Dashboard.KPICard "Average Sentiment" v1 (Some "30d rolling") risk_tone;
             Dashboard.KPICard "% Negative" v2 (Some "Twitter/Reddit blend")
               negative_tone;
             Dashboard.KPICard "Predicted Sales Drop" v3 (Some "Short-term")
               risk_tone;
             Dashboard.KPICard "Risk Level" v4 None risk_tone ])
    /\ negative_tone <> "good".
Proof.
  destruct (kpi_card_tones Examples.integer_toString
              (Examples.loaded (Examples.snapshot "High" (JSNumber.of_Z 20)))
              (Examples.snapshot "High" (JSNumber.of_Z 20)) eq_refl eq_refl)
    as (v1 & v2 & v3 & v4 & rt & nt & Hgrid & _ & _ & Hnot).
  exists v1, v2, v3, v4, rt, nt. split; assumption.
Defined.

(** A first load that succeeds stores the snapshot. *)
Lemma first_load_witness :
  Dashboard.data
    (Handler.commit Dashboard.apply Dashboard.initial
       (Handler.trace
          (Dashboard.on_mount Examples.message_of
             (fun _ => inr (Examples.snapshot "Low" (JSNumber.of_Z 20))))))
  = Some (Examples.snapshot "Low" (JSNumber.of_Z 20)).
Proof.
  destruct (first_load Examples.message_of Examples.integer_toString
              (fun _ => inr (Examples.snapshot "Low" (JSNumber.of_Z 20))))
    as (_ & _ & Hok & _).
  exact (proj1 (Hok _ eq_refl)).
Defined.
